(** * evdev: key codes, key state and the keymap protocol (keys.go)

    A shallow embedding of [keys.go] of the evdev package: the key and
    button code tables, the [KeymapEntry] record, and the three [Device]
    methods [KeyState], [KeyMap] and [SetKeyMap], which talk to the kernel
    through the [ioctl] system call.

    Go integers are modelled as [Z] with the wrap-around of each conversion
    written out; memory handed to the kernel by pointer is modelled by the
    value stored there before and after the call.  The kernel is an
    interface, and every system call is recorded in a trace.

    The parts of the package that [keys.go] relies on but that live in
    other files (the bitset, the [ioctl] helper, [EventTypes], [Close] and
    the inbound event pump) follow the specification; each such definition
    says so. *)

From Stdlib Require Import ZArith List Lia Bool.
From Stdlib Require HexString.
From stdpp Require Import base tactics list numbers relations strings.
Import ListNotations.
Local Open Scope Z_scope.

(** ** Fixed-width unsigned integers *)

(** Conversion of an integer to an unsigned type of [w] bits keeps the low
    [w] bits, as Go's [uint8(x)], [uint16(x)], [uint32(x)], [uintptr(x)]. *)
Definition to_uint (w : Z) (x : Z) : Z := x mod 2 ^ w.

Definition uint8 (x : Z) : Z := to_uint 8 x.
Definition uint16 (x : Z) : Z := to_uint 16 x.
Definition uint32 (x : Z) : Z := to_uint 32 x.
Definition uintptr (x : Z) : Z := to_uint 64 x.

(** ** KeymapEntry.Flags values *)

(** [InputKeymapByIndex = 1 << iota], the first constant of its block. *)
Definition InputKeymapByIndex : Z := Z.shiftl 1 0.

(** ** Key codes *)

Definition KeyReserved : Z := 0.
Definition KeyEscape : Z := 1.
Definition Key1 : Z := 2.
Definition Key2 : Z := 3.
Definition Key3 : Z := 4.
Definition Key4 : Z := 5.
Definition Key5 : Z := 6.
Definition Key6 : Z := 7.
Definition Key7 : Z := 8.
Definition Key8 : Z := 9.
Definition Key9 : Z := 10.
Definition Key0 : Z := 11.
Definition KeyMinus : Z := 12.
Definition KeyEqual : Z := 13.
Definition KeyBackSpace : Z := 14.
Definition KeyTab : Z := 15.
Definition KeyQ : Z := 16.
Definition KeyW : Z := 17.
Definition KeyE : Z := 18.
Definition KeyR : Z := 19.
Definition KeyT : Z := 20.
Definition KeyY : Z := 21.
Definition KeyU : Z := 22.
Definition KeyI : Z := 23.
Definition KeyO : Z := 24.
Definition KeyP : Z := 25.
Definition KeyLeftBrace : Z := 26.
Definition KeyRightBrace : Z := 27.
Definition KeyEnter : Z := 28.
Definition KeyLeftCtrl : Z := 29.
Definition KeyA : Z := 30.
Definition KeyS : Z := 31.
Definition KeyD : Z := 32.
Definition KeyF : Z := 33.
Definition KeyG : Z := 34.
Definition KeyH : Z := 35.
Definition KeyJ : Z := 36.
Definition KeyK : Z := 37.
Definition KeyL : Z := 38.
Definition KeySemiColon : Z := 39.
Definition KeyApostrophe : Z := 40.
Definition KeyGrave : Z := 41.
Definition KeyLeftShift : Z := 42.
Definition KeyBackSlash : Z := 43.
Definition KeyZ : Z := 44.
Definition KeyX : Z := 45.
Definition KeyC : Z := 46.
Definition KeyV : Z := 47.
Definition KeyB : Z := 48.
Definition KeyN : Z := 49.
Definition KeyM : Z := 50.
Definition KeyComma : Z := 51.
Definition KeyDot : Z := 52.
Definition KeySlash : Z := 53.
Definition KeyRightShift : Z := 54.
Definition KeyKPAsterisk : Z := 55.
Definition KeyLeftAlt : Z := 56.
Definition KeySpace : Z := 57.
Definition KeyCapsLock : Z := 58.
Definition KeyF1 : Z := 59.
Definition KeyF2 : Z := 60.
Definition KeyF3 : Z := 61.
Definition KeyF4 : Z := 62.
Definition KeyF5 : Z := 63.
Definition KeyF6 : Z := 64.
Definition KeyF7 : Z := 65.
Definition KeyF8 : Z := 66.
Definition KeyF9 : Z := 67.
Definition KeyF10 : Z := 68.
Definition KeyNumLock : Z := 69.
Definition KeyScrollLock : Z := 70.
Definition KeyKP7 : Z := 71.
Definition KeyKP8 : Z := 72.
Definition KeyKP9 : Z := 73.
Definition KeyKPMinus : Z := 74.
Definition KeyKP4 : Z := 75.
Definition KeyKP5 : Z := 76.
Definition KeyKP6 : Z := 77.
Definition KeyKPPlus : Z := 78.
Definition KeyKP1 : Z := 79.
Definition KeyKP2 : Z := 80.
Definition KeyKP3 : Z := 81.
Definition KeyKP0 : Z := 82.
Definition KeyKPDot : Z := 83.
Definition KeyZenkakuhankaku : Z := 85.
Definition Key102ND : Z := 86.
Definition KeyF11 : Z := 87.
Definition KeyF12 : Z := 88.
Definition KeyRO : Z := 89.
Definition KeyKatakana : Z := 90.
Definition KeyHiragana : Z := 91.
Definition KeyHenkan : Z := 92.
Definition KeyKatakanaHiragana : Z := 93.
Definition KeyMuhenkan : Z := 94.
Definition KeyKPJPComma : Z := 95.
Definition KeyKPEnter : Z := 96.
Definition KeyRightCtrl : Z := 97.
Definition KeyKPSlash : Z := 98.
Definition KeySysRQ : Z := 99.
Definition KeyRightAlt : Z := 100.
Definition KeyLineFeed : Z := 101.
Definition KeyHome : Z := 102.
Definition KeyUp : Z := 103.
Definition KeyPageUp : Z := 104.
Definition KeyLeft : Z := 105.
Definition KeyRight : Z := 106.
Definition KeyEnd : Z := 107.
Definition KeyDown : Z := 108.
Definition KeyPageDown : Z := 109.
Definition KeyInsert : Z := 110.
Definition KeyDelete : Z := 111.
Definition KeyMacro : Z := 112.
Definition KeyMute : Z := 113.
Definition KeyVolumeDown : Z := 114.
Definition KeyVolumeUp : Z := 115.
Definition KeyPower : Z := 116.
Definition KeyKPEqual : Z := 117.
Definition KeyKPPlusMinus : Z := 118.
Definition KeyPause : Z := 119.
Definition KeyScale : Z := 120.
Definition KeyKPComma : Z := 121.
Definition KeyHangeul : Z := 122.
Definition KeyHanguel : Z := KeyHangeul.
Definition KeyHanja : Z := 123.
Definition KeyYen : Z := 124.
Definition KeyLeftMeta : Z := 125.
Definition KeyRightMeta : Z := 126.
Definition KeyCompose : Z := 127.
Definition KeyStop : Z := 128.
Definition KeyAgain : Z := 129.
Definition KeyProps : Z := 130.
Definition KeyUndo : Z := 131.
Definition KeyFront : Z := 132.
Definition KeyCopy : Z := 133.
Definition KeyOpen : Z := 134.
Definition KeyPaste : Z := 135.
Definition KeyFind : Z := 136.
Definition KeyCut : Z := 137.
Definition KeyHelp : Z := 138.
Definition KeyMenu : Z := 139.
Definition KeyCalc : Z := 140.
Definition KeySetup : Z := 141.
Definition KeySleep : Z := 142.
Definition KeyWakeup : Z := 143.
Definition KeyFile : Z := 144.
Definition KeySendFile : Z := 145.
Definition KeyDeleteFile : Z := 146.
Definition KeyXFer : Z := 147.
Definition KeyProg1 : Z := 148.
Definition KeyProg2 : Z := 149.
Definition KeyWWW : Z := 150.
Definition KeyMSDOS : Z := 151.
Definition KeyCoffee : Z := 152.
Definition KeyScreenlock : Z := KeyCoffee.
Definition KeyDirection : Z := 153.
Definition KeyCycleWindows : Z := 154.
Definition KeyMail : Z := 155.
Definition KeyBookmarks : Z := 156.
Definition KeyComputer : Z := 157.
Definition KeyBack : Z := 158.
Definition KeyForward : Z := 159.
Definition KeyCloseCD : Z := 160.
Definition KeyEjectCD : Z := 161.
Definition KeyEjectCloseCD : Z := 162.
Definition KeyNextSong : Z := 163.
Definition KeyPlayPause : Z := 164.
Definition KeyPreviousSong : Z := 165.
Definition KeyStopCD : Z := 166.
Definition KeyRecord : Z := 167.
Definition KeyRewind : Z := 168.
Definition KeyPhone : Z := 169.
Definition KeyISO : Z := 170.
Definition KeyConfig : Z := 171.
Definition KeyHomepage : Z := 172.
Definition KeyRefresh : Z := 173.
Definition KeyExit : Z := 174.
Definition KeyMove : Z := 175.
Definition KeyEdit : Z := 176.
Definition KeyScrollUp : Z := 177.
Definition KeyScrollDown : Z := 178.
Definition KeyKPLeftParen : Z := 179.
Definition KeyKPRightParen : Z := 180.
Definition KeyNew : Z := 181.
Definition KeyRedo : Z := 182.
Definition KeyF13 : Z := 183.
Definition KeyF14 : Z := 184.
Definition KeyF15 : Z := 185.
Definition KeyF16 : Z := 186.
Definition KeyF17 : Z := 187.
Definition KeyF18 : Z := 188.
Definition KeyF19 : Z := 189.
Definition KeyF20 : Z := 190.
Definition KeyF21 : Z := 191.
Definition KeyF22 : Z := 192.
Definition KeyF23 : Z := 193.
Definition KeyF24 : Z := 194.
Definition KeyPlayCD : Z := 200.
Definition KeyPauseCD : Z := 201.
Definition KeyProg3 : Z := 202.
Definition KeyProg4 : Z := 203.
Definition KeyDashboard : Z := 204.
Definition KeySuspend : Z := 205.
Definition KeyClose : Z := 206.
Definition KeyPlay : Z := 207.
Definition KeyFastForward : Z := 208.
Definition KeyBassBoost : Z := 209.
Definition KeyPrint : Z := 210.
Definition KeyHP : Z := 211.
Definition KeyCanera : Z := 212.
Definition KeySound : Z := 213.
Definition KeyQuestion : Z := 214.
Definition KeyEmail : Z := 215.
Definition KeyChat : Z := 216.
Definition KeySearch : Z := 217.
Definition KeyConnect : Z := 218.
Definition KeyFinance : Z := 219.
Definition KeySport : Z := 220.
Definition KeyShop : Z := 221.
Definition KeyAltErase : Z := 222.
Definition KeyCancel : Z := 223.
Definition KeyBrightnessDown : Z := 224.
Definition KeyBrightnessUp : Z := 225.
Definition KeyMedia : Z := 226.
Definition KeySwitchVideoMode : Z := 227.
Definition KeyKBDIllumToggle : Z := 228.
Definition KeyKBDIllumDown : Z := 229.
Definition KeyKBDIllumUp : Z := 230.
Definition KeySend : Z := 231.
Definition KeyReply : Z := 232.
Definition KeyForwardMail : Z := 233.
Definition KeySave : Z := 234.
Definition KeyDocuments : Z := 235.
Definition KeyBattery : Z := 236.
Definition KeyBluetooth : Z := 237.
Definition KeyWLAN : Z := 238.
Definition KeyUWB : Z := 239.
Definition KeyUnknown : Z := 240.
Definition KeyVideoNext : Z := 241.
Definition KeyVideoPrevious : Z := 242.
Definition KeyBrightnessCycle : Z := 243.
Definition KeyBrightnessZero : Z := 244.
Definition KeyDisplayOff : Z := 245.
Definition KeyWIMax : Z := 246.
Definition KeyRFKill : Z := 247.
Definition KeyMicMute : Z := 248.
Definition KeyOk : Z := 0x160.
Definition KeySelect : Z := 0x161.
Definition KeyGoto : Z := 0x162.
Definition KeyClear : Z := 0x163.
Definition KeyPower2 : Z := 0x164.
Definition KeyOption : Z := 0x165.
Definition KeyInfo : Z := 0x166.
Definition KeyTime : Z := 0x167.
Definition KeyVendor : Z := 0x168.
Definition KeyArchive : Z := 0x169.
Definition KeyProgram : Z := 0x16a.
Definition KeyChannel : Z := 0x16b.
Definition KeyFavorites : Z := 0x16c.
Definition KeyEPG : Z := 0x16d.
Definition KeyPVR : Z := 0x16e.
Definition KeyMHP : Z := 0x16f.
Definition KeyLanguage : Z := 0x170.
Definition KeyTitle : Z := 0x171.
Definition KeySubtitle : Z := 0x172.
Definition KeyAngle : Z := 0x173.
Definition KeyZoom : Z := 0x174.
Definition KeyMode : Z := 0x175.
Definition KeyKeyboard : Z := 0x176.
Definition KeyScreen : Z := 0x177.
Definition KeyPC : Z := 0x178.
Definition KeyTV : Z := 0x179.
Definition KeyTV2 : Z := 0x17a.
Definition KeyVCR : Z := 0x17b.
Definition KeyVCR2 : Z := 0x17c.
Definition KeySAT : Z := 0x17d.
Definition KeySAT2 : Z := 0x17e.
Definition KeyCD : Z := 0x17f.
Definition KeyTape : Z := 0x180.
Definition KeyRadio : Z := 0x181.
Definition KeyTuner : Z := 0x182.
Definition KeyPlayer : Z := 0x183.
Definition KeyText : Z := 0x184.
Definition KeyDVD : Z := 0x185.
Definition KeyAUX : Z := 0x186.
Definition KeyMP3 : Z := 0x187.
Definition KeyAudio : Z := 0x188.
Definition KeyVideo : Z := 0x189.
Definition KeyDirectory : Z := 0x18a.
Definition KeyList : Z := 0x18b.
Definition KeyMemo : Z := 0x18c.
Definition KeyCalender : Z := 0x18d.
Definition KeyRed : Z := 0x18e.
Definition KeyGreen : Z := 0x18f.
Definition KeyYellow : Z := 0x190.
Definition KeyBlue : Z := 0x191.
Definition KeyChannelUp : Z := 0x192.
Definition KeyChannelDown : Z := 0x193.
Definition KeyFirst : Z := 0x194.
Definition KeyLast : Z := 0x195.
Definition KeyAB : Z := 0x196.
Definition KeyNext : Z := 0x197.
Definition KeyRestart : Z := 0x198.
Definition KeySlow : Z := 0x199.
Definition KeyShuffle : Z := 0x19a.
Definition KeyBreak : Z := 0x19b.
Definition KeyPrevious : Z := 0x19c.
Definition KeyDigits : Z := 0x19d.
Definition KeyTeen : Z := 0x19e.
Definition KeyTwen : Z := 0x19f.
Definition KeyVideoPhone : Z := 0x1a0.
Definition KeyGames : Z := 0x1a1.
Definition KeyZoomIn : Z := 0x1a2.
Definition KeyZoomOut : Z := 0x1a3.
Definition KeyZoomReset : Z := 0x1a4.
Definition KeyWordProcessor : Z := 0x1a5.
Definition KeyEditor : Z := 0x1a6.
Definition KeySpreadsheet : Z := 0x1a7.
Definition KeyGraphicsEditor : Z := 0x1a8.
Definition KeyPresentation : Z := 0x1a9.
Definition KeyDatabase : Z := 0x1aa.
Definition KeyNews : Z := 0x1ab.
Definition KeyVoiceMail : Z := 0x1ac.
Definition KeyAddressBook : Z := 0x1ad.
Definition KeyMessenger : Z := 0x1ae.
Definition KeyDisplayToggle : Z := 0x1af.
Definition KeySpellCheck : Z := 0x1b0.
Definition KeyLogoff : Z := 0x1b1.
Definition KeyDollar : Z := 0x1b2.
Definition KeyEuro : Z := 0x1b3.
Definition KeyFrameBack : Z := 0x1b4.
Definition KeyframeForward : Z := 0x1b5.
Definition KeyContextMenu : Z := 0x1b6.
Definition KeyMediaRepeat : Z := 0x1b7.
Definition Key10ChannelsUp : Z := 0x1b8.
Definition Key10ChannelsDown : Z := 0x1b9.
Definition KeyImages : Z := 0x1ba.
Definition KeyDelEOL : Z := 0x1c0.
Definition KeyDelEOS : Z := 0x1c1.
Definition KeyInsLine : Z := 0x1c2.
Definition KeyDelLine : Z := 0x1c3.
Definition KeyFN : Z := 0x1d0.
Definition KeyFNEsc : Z := 0x1d1.
Definition KeyFNF1 : Z := 0x1d2.
Definition KeyFNF2 : Z := 0x1d3.
Definition KeyFNF3 : Z := 0x1d4.
Definition KeyFNF4 : Z := 0x1d5.
Definition KeyFNF5 : Z := 0x1d6.
Definition KeyFNF6 : Z := 0x1d7.
Definition KeyFNF7 : Z := 0x1d8.
Definition KeyFNF8 : Z := 0x1d9.
Definition KeyFNF9 : Z := 0x1da.
Definition KeyFNF10 : Z := 0x1db.
Definition KeyFNF11 : Z := 0x1dc.
Definition KeyFNF12 : Z := 0x1dd.
Definition KeyFN1 : Z := 0x1de.
Definition KeyFN2 : Z := 0x1df.
Definition KeyFND : Z := 0x1e0.
Definition KeyFNE : Z := 0x1e1.
Definition KeyFNF : Z := 0x1e2.
Definition KeyFNS : Z := 0x1e3.
Definition KeyFNB : Z := 0x1e4.
Definition KeyBRLDot1 : Z := 0x1f1.
Definition KeyBRLDot2 : Z := 0x1f2.
Definition KeyBRLDot3 : Z := 0x1f3.
Definition KeyBRLDot4 : Z := 0x1f4.
Definition KeyBRLDot5 : Z := 0x1f5.
Definition KeyBRLDot6 : Z := 0x1f6.
Definition KeyBRLDot7 : Z := 0x1f7.
Definition KeyBRLDot8 : Z := 0x1f8.
Definition KeyBRLDot9 : Z := 0x1f9.
Definition KeyBRLDot10 : Z := 0x1fa.
Definition KeyNumeric0 : Z := 0x200.
Definition KeyNumeric1 : Z := 0x201.
Definition KeyNumeric2 : Z := 0x202.
Definition KeyNumeric3 : Z := 0x203.
Definition KeyNumeric4 : Z := 0x204.
Definition KeyNumeric5 : Z := 0x205.
Definition KeyNumeric6 : Z := 0x206.
Definition KeyNumeric7 : Z := 0x207.
Definition KeyNumeric8 : Z := 0x208.
Definition KeyNumeric9 : Z := 0x209.
Definition KeyNumericStar : Z := 0x20a.
Definition KeyNumericPound : Z := 0x20b.
Definition KeyCameraFocus : Z := 0x210.
Definition KeyWPSButton : Z := 0x211.
Definition KeyTouchpadToggle : Z := 0x212.
Definition KeyTouchpadOn : Z := 0x213.
Definition KeyTouchpadOff : Z := 0x214.
Definition KeyCameraZoomIn : Z := 0x215.
Definition KeyCameraZoomOut : Z := 0x216.
Definition KeyCameraUp : Z := 0x217.
Definition KeyCameraDown : Z := 0x218.
Definition KeyCameraLeft : Z := 0x219.
Definition KeyCameraRight : Z := 0x21a.
Definition KeyAttendantOn : Z := 0x21b.
Definition KeyAttendantOff : Z := 0x21c.
Definition KeyAttendantToggle : Z := 0x21d.
Definition KeyLightsToggle : Z := 0x21e.
Definition KeyMinInteresting : Z := KeyMute.
Definition KeyMax : Z := 0x2ff.
Definition KeyCount : Z := KeyMax + 1.

(** ** Button codes for mice and other devices *)

Definition BtnMisc : Z := 0x100.
Definition Btn0 : Z := 0x100.
Definition Btn1 : Z := 0x101.
Definition Btn2 : Z := 0x102.
Definition Btn3 : Z := 0x103.
Definition Btn4 : Z := 0x104.
Definition Btn5 : Z := 0x105.
Definition Btn6 : Z := 0x106.
Definition Btn7 : Z := 0x107.
Definition Btn8 : Z := 0x108.
Definition Btn9 : Z := 0x109.
Definition BtnMouse : Z := 0x110.
Definition BtnLeft : Z := 0x110.
Definition BtnRight : Z := 0x111.
Definition BtnMiddle : Z := 0x112.
Definition BtnSide : Z := 0x113.
Definition BtnExtra : Z := 0x114.
Definition BtnForward : Z := 0x115.
Definition BtnBack : Z := 0x116.
Definition BtnTask : Z := 0x117.
Definition BtnJoystick : Z := 0x120.
Definition BtnTrigger : Z := 0x120.
Definition BtnThumb : Z := 0x121.
Definition BtnThumb2 : Z := 0x122.
Definition BtnTop : Z := 0x123.
Definition BtnTop2 : Z := 0x124.
Definition BtnPinkie : Z := 0x125.
Definition BtnBase : Z := 0x126.
Definition BtnBase2 : Z := 0x127.
Definition BtnBase3 : Z := 0x128.
Definition BtnBase4 : Z := 0x129.
Definition BtnBase5 : Z := 0x12a.
Definition BtnBase6 : Z := 0x12b.
Definition BtnDead : Z := 0x12f.
Definition BtnGamepad : Z := 0x130.
Definition BtnA : Z := 0x130.
Definition BtnB : Z := 0x131.
Definition BtnC : Z := 0x132.
Definition BtnX : Z := 0x133.
Definition BtnY : Z := 0x134.
Definition BtnZ : Z := 0x135.
Definition BtnTL : Z := 0x136.
Definition BtnTR : Z := 0x137.
Definition BtnTL2 : Z := 0x138.
Definition BtnTR2 : Z := 0x139.
Definition BtnSelect : Z := 0x13a.
Definition BtnStart : Z := 0x13b.
Definition BtnMode : Z := 0x13c.
Definition BtnThumbL : Z := 0x13d.
Definition BtnThumbR : Z := 0x13e.
Definition BtnDigi : Z := 0x140.
Definition BtnToolPen : Z := 0x140.
Definition BtnTooLRubber : Z := 0x141.
Definition BtnToolBrush : Z := 0x142.
Definition BtnToolPencil : Z := 0x143.
Definition BtnToolAirbrush : Z := 0x144.
Definition BtnToolFinger : Z := 0x145.
Definition BtnToolMouse : Z := 0x146.
Definition BtnToolLens : Z := 0x147.
Definition BtnToolQuintTap : Z := 0x148.
Definition BtnTouch : Z := 0x14a.
Definition BtnStylus : Z := 0x14b.
Definition BtnStylus2 : Z := 0x14c.
Definition BtnToolDoubleTap : Z := 0x14d.
Definition BtnToolTrippleTap : Z := 0x14e.
Definition BtnToolQuadTap : Z := 0x14f.
Definition BtnWheel : Z := 0x150.
Definition BtnGearDown : Z := 0x150.
Definition BtnGearUp : Z := 0x151.
Definition BtnTriggerHappy : Z := 0x2c0.
Definition BtnTriggerHappy1 : Z := 0x2c0.
Definition BtnTriggerHappy2 : Z := 0x2c1.
Definition BtnTriggerHappy3 : Z := 0x2c2.
Definition BtnTriggerHappy4 : Z := 0x2c3.
Definition BtnTriggerHappy5 : Z := 0x2c4.
Definition BtnTriggerHappy6 : Z := 0x2c5.
Definition BtnTriggerHappy7 : Z := 0x2c6.
Definition BtnTriggerHappy8 : Z := 0x2c7.
Definition BtnTriggerHappy9 : Z := 0x2c8.
Definition BtnTriggerHappy10 : Z := 0x2c9.
Definition BtnTriggerHappy11 : Z := 0x2ca.
Definition BtnTriggerHappy12 : Z := 0x2cb.
Definition BtnTriggerHappy13 : Z := 0x2cc.
Definition BtnTriggerHappy14 : Z := 0x2cd.
Definition BtnTriggerHappy15 : Z := 0x2ce.
Definition BtnTriggerHappy16 : Z := 0x2cf.
Definition BtnTriggerHappy17 : Z := 0x2d0.
Definition BtnTriggerHappy18 : Z := 0x2d1.
Definition BtnTriggerHappy19 : Z := 0x2d2.
Definition BtnTriggerHappy20 : Z := 0x2d3.
Definition BtnTriggerHappy21 : Z := 0x2d4.
Definition BtnTriggerHappy22 : Z := 0x2d5.
Definition BtnTriggerHappy23 : Z := 0x2d6.
Definition BtnTriggerHappy24 : Z := 0x2d7.
Definition BtnTriggerHappy25 : Z := 0x2d8.
Definition BtnTriggerHappy26 : Z := 0x2d9.
Definition BtnTriggerHappy27 : Z := 0x2da.
Definition BtnTriggerHappy28 : Z := 0x2db.
Definition BtnTriggerHappy29 : Z := 0x2dc.
Definition BtnTriggerHappy30 : Z := 0x2dd.
Definition BtnTriggerHappy31 : Z := 0x2de.
Definition BtnTriggerHappy32 : Z := 0x2df.
Definition BtnTriggerHappy33 : Z := 0x2e0.
Definition BtnTriggerHappy34 : Z := 0x2e1.
Definition BtnTriggerHappy35 : Z := 0x2e2.
Definition BtnTriggerHappy36 : Z := 0x2e3.
Definition BtnTriggerHappy37 : Z := 0x2e4.
Definition BtnTriggerHappy38 : Z := 0x2e5.
Definition BtnTriggerHappy39 : Z := 0x2e6.
Definition BtnTriggerHappy40 : Z := 0x2e7.

(** The named constants of the key block, in source order.  [KeyCount] is
    the number of codes, not a code, and is left out. *)
Definition key_constants : list Z :=
  [KeyReserved; KeyEscape; Key1; Key2; Key3; Key4; Key5; Key6; Key7; Key8;
   Key9; Key0; KeyMinus; KeyEqual; KeyBackSpace; KeyTab; KeyQ; KeyW; KeyE;
   KeyR; KeyT; KeyY; KeyU; KeyI; KeyO; KeyP; KeyLeftBrace; KeyRightBrace;
   KeyEnter; KeyLeftCtrl; KeyA; KeyS; KeyD; KeyF; KeyG; KeyH; KeyJ; KeyK;
   KeyL; KeySemiColon; KeyApostrophe; KeyGrave; KeyLeftShift; KeyBackSlash;
   KeyZ; KeyX; KeyC; KeyV; KeyB; KeyN; KeyM; KeyComma; KeyDot; KeySlash;
   KeyRightShift; KeyKPAsterisk; KeyLeftAlt; KeySpace; KeyCapsLock; KeyF1;
   KeyF2; KeyF3; KeyF4; KeyF5; KeyF6; KeyF7; KeyF8; KeyF9; KeyF10;
   KeyNumLock; KeyScrollLock; KeyKP7; KeyKP8; KeyKP9; KeyKPMinus; KeyKP4;
   KeyKP5; KeyKP6; KeyKPPlus; KeyKP1; KeyKP2; KeyKP3; KeyKP0; KeyKPDot;
   KeyZenkakuhankaku; Key102ND; KeyF11; KeyF12; KeyRO; KeyKatakana;
   KeyHiragana; KeyHenkan; KeyKatakanaHiragana; KeyMuhenkan; KeyKPJPComma;
   KeyKPEnter; KeyRightCtrl; KeyKPSlash; KeySysRQ; KeyRightAlt; KeyLineFeed;
   KeyHome; KeyUp; KeyPageUp; KeyLeft; KeyRight; KeyEnd; KeyDown;
   KeyPageDown; KeyInsert; KeyDelete; KeyMacro; KeyMute; KeyVolumeDown;
   KeyVolumeUp; KeyPower; KeyKPEqual; KeyKPPlusMinus; KeyPause; KeyScale;
   KeyKPComma; KeyHangeul; KeyHanguel; KeyHanja; KeyYen; KeyLeftMeta;
   KeyRightMeta; KeyCompose; KeyStop; KeyAgain; KeyProps; KeyUndo; KeyFront;
   KeyCopy; KeyOpen; KeyPaste; KeyFind; KeyCut; KeyHelp; KeyMenu; KeyCalc;
   KeySetup; KeySleep; KeyWakeup; KeyFile; KeySendFile; KeyDeleteFile;
   KeyXFer; KeyProg1; KeyProg2; KeyWWW; KeyMSDOS; KeyCoffee; KeyScreenlock;
   KeyDirection; KeyCycleWindows; KeyMail; KeyBookmarks; KeyComputer;
   KeyBack; KeyForward; KeyCloseCD; KeyEjectCD; KeyEjectCloseCD; KeyNextSong;
   KeyPlayPause; KeyPreviousSong; KeyStopCD; KeyRecord; KeyRewind; KeyPhone;
   KeyISO; KeyConfig; KeyHomepage; KeyRefresh; KeyExit; KeyMove; KeyEdit;
   KeyScrollUp; KeyScrollDown; KeyKPLeftParen; KeyKPRightParen; KeyNew;
   KeyRedo; KeyF13; KeyF14; KeyF15; KeyF16; KeyF17; KeyF18; KeyF19; KeyF20;
   KeyF21; KeyF22; KeyF23; KeyF24; KeyPlayCD; KeyPauseCD; KeyProg3; KeyProg4;
   KeyDashboard; KeySuspend; KeyClose; KeyPlay; KeyFastForward; KeyBassBoost;
   KeyPrint; KeyHP; KeyCanera; KeySound; KeyQuestion; KeyEmail; KeyChat;
   KeySearch; KeyConnect; KeyFinance; KeySport; KeyShop; KeyAltErase;
   KeyCancel; KeyBrightnessDown; KeyBrightnessUp; KeyMedia;
   KeySwitchVideoMode; KeyKBDIllumToggle; KeyKBDIllumDown; KeyKBDIllumUp;
   KeySend; KeyReply; KeyForwardMail; KeySave; KeyDocuments; KeyBattery;
   KeyBluetooth; KeyWLAN; KeyUWB; KeyUnknown; KeyVideoNext; KeyVideoPrevious;
   KeyBrightnessCycle; KeyBrightnessZero; KeyDisplayOff; KeyWIMax; KeyRFKill;
   KeyMicMute; KeyOk; KeySelect; KeyGoto; KeyClear; KeyPower2; KeyOption;
   KeyInfo; KeyTime; KeyVendor; KeyArchive; KeyProgram; KeyChannel;
   KeyFavorites; KeyEPG; KeyPVR; KeyMHP; KeyLanguage; KeyTitle; KeySubtitle;
   KeyAngle; KeyZoom; KeyMode; KeyKeyboard; KeyScreen; KeyPC; KeyTV; KeyTV2;
   KeyVCR; KeyVCR2; KeySAT; KeySAT2; KeyCD; KeyTape; KeyRadio; KeyTuner;
   KeyPlayer; KeyText; KeyDVD; KeyAUX; KeyMP3; KeyAudio; KeyVideo;
   KeyDirectory; KeyList; KeyMemo; KeyCalender; KeyRed; KeyGreen; KeyYellow;
   KeyBlue; KeyChannelUp; KeyChannelDown; KeyFirst; KeyLast; KeyAB; KeyNext;
   KeyRestart; KeySlow; KeyShuffle; KeyBreak; KeyPrevious; KeyDigits;
   KeyTeen; KeyTwen; KeyVideoPhone; KeyGames; KeyZoomIn; KeyZoomOut;
   KeyZoomReset; KeyWordProcessor; KeyEditor; KeySpreadsheet;
   KeyGraphicsEditor; KeyPresentation; KeyDatabase; KeyNews; KeyVoiceMail;
   KeyAddressBook; KeyMessenger; KeyDisplayToggle; KeySpellCheck; KeyLogoff;
   KeyDollar; KeyEuro; KeyFrameBack; KeyframeForward; KeyContextMenu;
   KeyMediaRepeat; Key10ChannelsUp; Key10ChannelsDown; KeyImages; KeyDelEOL;
   KeyDelEOS; KeyInsLine; KeyDelLine; KeyFN; KeyFNEsc; KeyFNF1; KeyFNF2;
   KeyFNF3; KeyFNF4; KeyFNF5; KeyFNF6; KeyFNF7; KeyFNF8; KeyFNF9; KeyFNF10;
   KeyFNF11; KeyFNF12; KeyFN1; KeyFN2; KeyFND; KeyFNE; KeyFNF; KeyFNS;
   KeyFNB; KeyBRLDot1; KeyBRLDot2; KeyBRLDot3; KeyBRLDot4; KeyBRLDot5;
   KeyBRLDot6; KeyBRLDot7; KeyBRLDot8; KeyBRLDot9; KeyBRLDot10; KeyNumeric0;
   KeyNumeric1; KeyNumeric2; KeyNumeric3; KeyNumeric4; KeyNumeric5;
   KeyNumeric6; KeyNumeric7; KeyNumeric8; KeyNumeric9; KeyNumericStar;
   KeyNumericPound; KeyCameraFocus; KeyWPSButton; KeyTouchpadToggle;
   KeyTouchpadOn; KeyTouchpadOff; KeyCameraZoomIn; KeyCameraZoomOut;
   KeyCameraUp; KeyCameraDown; KeyCameraLeft; KeyCameraRight; KeyAttendantOn;
   KeyAttendantOff; KeyAttendantToggle; KeyLightsToggle; KeyMinInteresting;
   KeyMax].

(** The named constants of the button block, in source order. *)
Definition button_constants : list Z :=
  [BtnMisc; Btn0; Btn1; Btn2; Btn3; Btn4; Btn5; Btn6; Btn7; Btn8; Btn9;
   BtnMouse; BtnLeft; BtnRight; BtnMiddle; BtnSide; BtnExtra; BtnForward;
   BtnBack; BtnTask; BtnJoystick; BtnTrigger; BtnThumb; BtnThumb2; BtnTop;
   BtnTop2; BtnPinkie; BtnBase; BtnBase2; BtnBase3; BtnBase4; BtnBase5;
   BtnBase6; BtnDead; BtnGamepad; BtnA; BtnB; BtnC; BtnX; BtnY; BtnZ; BtnTL;
   BtnTR; BtnTL2; BtnTR2; BtnSelect; BtnStart; BtnMode; BtnThumbL; BtnThumbR;
   BtnDigi; BtnToolPen; BtnTooLRubber; BtnToolBrush; BtnToolPencil;
   BtnToolAirbrush; BtnToolFinger; BtnToolMouse; BtnToolLens;
   BtnToolQuintTap; BtnTouch; BtnStylus; BtnStylus2; BtnToolDoubleTap;
   BtnToolTrippleTap; BtnToolQuadTap; BtnWheel; BtnGearDown; BtnGearUp;
   BtnTriggerHappy; BtnTriggerHappy1; BtnTriggerHappy2; BtnTriggerHappy3;
   BtnTriggerHappy4; BtnTriggerHappy5; BtnTriggerHappy6; BtnTriggerHappy7;
   BtnTriggerHappy8; BtnTriggerHappy9; BtnTriggerHappy10; BtnTriggerHappy11;
   BtnTriggerHappy12; BtnTriggerHappy13; BtnTriggerHappy14;
   BtnTriggerHappy15; BtnTriggerHappy16; BtnTriggerHappy17;
   BtnTriggerHappy18; BtnTriggerHappy19; BtnTriggerHappy20;
   BtnTriggerHappy21; BtnTriggerHappy22; BtnTriggerHappy23;
   BtnTriggerHappy24; BtnTriggerHappy25; BtnTriggerHappy26;
   BtnTriggerHappy27; BtnTriggerHappy28; BtnTriggerHappy29;
   BtnTriggerHappy30; BtnTriggerHappy31; BtnTriggerHappy32;
   BtnTriggerHappy33; BtnTriggerHappy34; BtnTriggerHappy35;
   BtnTriggerHappy36; BtnTriggerHappy37; BtnTriggerHappy38;
   BtnTriggerHappy39; BtnTriggerHappy40].

(** A code of the key/button code space. *)
Definition is_key_code (c : Z) : bool := (0 <=? c) && (c <=? KeyMax).

(** ** Go values and panics *)

(** The result of a Go call that may panic at run time. *)
Inductive go (A : Type) : Type :=
  | Ret (a : A)
  | Panic.
Arguments Ret {A} a.
Arguments Panic {A}.

(** ** KeymapEntry *)

(** The struct of the source, field by field.  [Scancode] is the
    [[32]uint8] array, kept as the list of its 32 elements. *)
Record KeymapEntry : Type := mkKeymapEntry {
  Flags : Z;            (* uint8 *)
  Len : Z;              (* uint8 *)
  Index : Z;            (* uint16 *)
  Keycode : Z;          (* uint32 *)
  Scancode : list Z     (* [32]uint8 *)
}.

(** Capacity of the scancode buffer. *)
Definition ScancodeCap : nat := 32.

(** [var entry KeymapEntry]: Go's zero value of the struct. *)
Definition KeymapEntry_zero : KeymapEntry :=
  {| Flags := 0; Len := 0; Index := 0; Keycode := 0;
     Scancode := replicate ScancodeCap 0 |}.

(** [entry.Keycode = v]. *)
Definition set_Keycode (entry : KeymapEntry) (v : Z) : KeymapEntry :=
  {| Flags := Flags entry; Len := Len entry; Index := Index entry;
     Keycode := v; Scancode := Scancode entry |}.

(** What the memory of a [KeymapEntry] holds after arbitrary field values
    were written to it: every field keeps only the bits of its type, and
    the array keeps its 32 elements. *)
Definition store_entry (e : KeymapEntry) : KeymapEntry :=
  {| Flags := uint8 (Flags e); Len := uint8 (Len e);
     Index := uint16 (Index e); Keycode := uint32 (Keycode e);
     Scancode := resize ScancodeCap 0 (map uint8 (Scancode e)) |}.

(** A value the Go type [KeymapEntry] can hold. *)
Definition KeymapEntry_valid (e : KeymapEntry) : Prop :=
  0 <= Flags e < 2 ^ 8 /\ 0 <= Len e < 2 ^ 8 /\
  0 <= Index e < 2 ^ 16 /\ 0 <= Keycode e < 2 ^ 32 /\
  length (Scancode e) = ScancodeCap /\
  Forall (fun b => 0 <= b < 2 ^ 8) (Scancode e).

(** *** Layout of the struct in memory *)

(** The Go types that occur in the struct. *)
Inductive gotype : Type :=
  | TUint8
  | TUint16
  | TUint32
  | TArray (n : Z) (elem : gotype).

(** [unsafe.Sizeof] of a value of the type. *)
Fixpoint sizeof (t : gotype) : Z :=
  match t with
  | TUint8 => 1
  | TUint16 => 2
  | TUint32 => 4
  | TArray n elem => n * sizeof elem
  end.

(** [unsafe.Alignof]: a fixed-width integer is aligned to its size, an
    array to its element. *)
Fixpoint alignof (t : gotype) : Z :=
  match t with
  | TUint8 => 1
  | TUint16 => 2
  | TUint32 => 4
  | TArray _ elem => alignof elem
  end.

(** The next multiple of [a] at or after [off]. *)
Definition align_up (off a : Z) : Z := (off + a - 1) / a * a.

(** Offsets of the fields of a struct laid out from offset [off]: each
    field goes to the next offset aligned for its type. *)
Fixpoint field_offsets (off : Z) (fields : list gotype) : list Z :=
  match fields with
  | [] => []
  | t :: rest =>
      let o := align_up off (alignof t) in
      o :: field_offsets (o + sizeof t) rest
  end.

(** The offset after the last field. *)
Fixpoint fields_end (off : Z) (fields : list gotype) : Z :=
  match fields with
  | [] => off
  | t :: rest => fields_end (align_up off (alignof t) + sizeof t) rest
  end.

(** Alignment of a struct: the largest alignment of its fields. *)
Definition struct_align (fields : list gotype) : Z :=
  fold_right (fun t a => Z.max (alignof t) a) 1 fields.

(** Size of a struct: the end of its fields, rounded up to its alignment. *)
Definition struct_size (fields : list gotype) : Z :=
  align_up (fields_end 0 fields) (struct_align fields).

(** The fields of [KeymapEntry] in declaration order:
    Flags, Len, Index, Keycode, Scancode. *)
Definition KeymapEntry_fields : list gotype :=
  [TUint8; TUint8; TUint16; TUint32; TArray 32 TUint8].

(** ** Bitset *)

(** Modelled from the spec: the Bitset type, whose source file is not part
    of the sources at hand.  A bitset has a declared bit capacity, fixed at
    construction, and a packed byte storage that exactly covers it, least
    significant bit first within each byte. *)
Record Bitset : Type := mkBitset {
  bs_max : Z;
  bs_store : list Z
}.

(** Modelled from the spec: [New(maxBits)], a bitset sized to hold [maxBits]
    indices, rounded up to whole bytes, all bits unset. *)
Definition NewBitset (maxBits : Z) : Bitset :=
  {| bs_max := maxBits;
     bs_store := replicate (Z.to_nat ((maxBits + 7) / 8)) 0 |}.

(** Modelled from the spec: [Bytes()], the underlying storage.  The slice
    shares its memory with the bitset. *)
Definition Bitset_Bytes (bs : Bitset) : list Z := bs_store bs.

(** Modelled from the spec: [Len()], the declared bit capacity. *)
Definition Bitset_Len (bs : Bitset) : Z := bs_max bs.

(** Modelled from the spec: [Test(i)], false for a bit that is unset and
    for an index out of range. *)
Definition Bitset_Test (bs : Bitset) (i : Z) : bool :=
  if (0 <=? i) && (i <? bs_max bs)
  then Z.testbit (nth (Z.to_nat (i / 8)) (bs_store bs) 0) (i mod 8)
  else false.

(** Modelled from the spec: the slice of [Bytes()] shares its memory with
    the bitset, so a write through the slice shows in the bitset. *)
Definition Bitset_written (bs : Bitset) (buf : list Z) : Bitset :=
  {| bs_max := bs_max bs; bs_store := buf |}.

(** ** The kernel *)

Definition errno : Type := Z.
Definition EBADF : errno := 9.

(** The kernel's answer to a request that carries a pointer: it fails with
    an error number and leaves the caller's memory as it was, or succeeds
    and has written to it. *)
Inductive reply (A : Type) : Type :=
  | Errno (e : errno)
  | Wrote (a : A).
Arguments Errno {A} e.
Arguments Wrote {A} a.

(** The device driver behind a descriptor, as far as this file uses it:
    requests on a byte buffer and requests on a keymap entry.  Arguments:
    kernel state, descriptor, request code, memory pointed to. *)
Class Kernel (K : Type) : Type := {
  kernel_bits : K -> Z -> Z -> list Z -> K * reply (list Z);
  kernel_keymap : K -> Z -> Z -> KeymapEntry -> K * reply KeymapEntry
}.

(** The request codes of the package, defined next to [ioctl] outside this
    file: they are parameters here. *)
Class Requests : Type := {
  _EVIOCGKEY : Z -> Z;
  _EVIOCGKEYCODE : Z;
  _EVIOCSKEYCODE : Z
}.

(** What was passed by pointer in a system call. *)
Inductive pointee : Type :=
  | PBytes (buf : list Z)
  | PEntry (entry : KeymapEntry).

(** One [ioctl] system call as the kernel saw it. *)
Record syscall : Type := Ioctl {
  sc_fd : Z;
  sc_request : Z;
  sc_data : pointee
}.

(** The world a program runs in: the kernel's state and the system calls
    made so far, oldest first. *)
Record World (K : Type) : Type := mkWorld {
  kern : K;
  trace : list syscall
}.
Arguments mkWorld {K} kern trace.
Arguments kern {K} w.
Arguments trace {K} w.

(** A byte buffer after the kernel wrote [written] to its start: the
    buffer keeps its length. *)
Definition store_bytes (buf written : list Z) : list Z :=
  take (length buf) (map uint8 written) ++ drop (length written) buf.

(** ** The device handle *)

(** [os.File], reduced to its descriptor; a closed file has descriptor -1. *)
Record File : Type := mkFile { sysfd : Z }.

(** The method [Fd] of [os.File]. *)
Definition Fd (f : File) : Z := uintptr (sysfd f).

(** The part of [Device] this file uses: [d.fd]. *)
Record Device : Type := mkDevice { fd : File }.

Section Methods.
Context {K : Type} {kernel : Kernel K} {requests : Requests}.

(** Modelled from the spec: the package's [ioctl] helper, absent from the
    sources, a control operation on the descriptor that fails with an error
    or fills the memory passed by reference.  This is
    [ioctl(fd, name, unsafe.Pointer(&buf[0]))] for a byte buffer: the call
    is recorded, and the error and the buffer after it are given back. *)
Definition ioctl_bytes (desc name : Z) (buf : list Z) (w : World K)
  : World K * (option errno * list Z) :=
  let '(k', r) := kernel_bits (kern w) desc name buf in
  let w' := mkWorld k' (trace w ++ [Ioctl desc name (PBytes buf)]) in
  match r with
  | Errno e => (w', (Some e, buf))
  | Wrote written => (w', (None, store_bytes buf written))
  end.

(** Modelled from the spec: the same helper called as
    [ioctl(fd, name, unsafe.Pointer(&entry))] for a keymap entry. *)
Definition ioctl_entry (desc name : Z) (entry : KeymapEntry) (w : World K)
  : World K * (option errno * KeymapEntry) :=
  let '(k', r) := kernel_keymap (kern w) desc name entry in
  let w' := mkWorld k' (trace w ++ [Ioctl desc name (PEntry entry)]) in
  match r with
  | Errno e => (w', (Some e, entry))
  | Wrote written => (w', (None, store_entry written))
  end.

(** [func (d *Device) KeyState() Bitset].  [&buf[0]] panics on an empty
    slice; the error of [ioctl] is dropped. *)
Definition KeyState (d : Device) (w : World K) : World K * go Bitset :=
  let bs := NewBitset KeyMax in
  let buf := Bitset_Bytes bs in
  match buf with
  | [] => (w, Panic)
  | _ :: _ =>
      let '(w', (_, buf')) :=
        ioctl_bytes (Fd (fd d)) (_EVIOCGKEY (Z.of_nat (length buf))) buf w in
      (w', Ret (Bitset_written bs buf'))
  end.

(** [func (d *Device) KeyMap(keycode int) KeymapEntry].  The error of
    [ioctl] is dropped. *)
Definition KeyMap (d : Device) (keycode : Z) (w : World K)
  : World K * KeymapEntry :=
  let entry := KeymapEntry_zero in
  let entry := set_Keycode entry (uint32 keycode) in
  let '(w', (_, entry')) := ioctl_entry (Fd (fd d)) _EVIOCGKEYCODE entry w in
  (w', entry').

(** [func (d *Device) SetKeyMap(entry KeymapEntry) bool]: [entry] is the
    method's own copy of the argument. *)
Definition SetKeyMap (d : Device) (entry : KeymapEntry) (w : World K)
  : World K * bool :=
  let '(w', (err, _)) := ioctl_entry (Fd (fd d)) _EVIOCSKEYCODE entry w in
  (w', match err with None => true | Some _ => false end).

End Methods.

(** The entry [KeyMap] builds before its call: the zero value with
    [Keycode] assigned. *)
Definition KeyMap_request (keycode : Z) : KeymapEntry :=
  set_Keycode KeymapEntry_zero (uint32 keycode).

(** ** The rest of the handle, from the specification *)

(** Modelled from the spec: the event-type code space and the request that
    fetches a capability mask, defined with [EventTypes] outside this file;
    they are parameters here. *)
Class Capabilities : Type := {
  EvMax : Z;
  _EVIOCGBIT : Z -> Z -> Z
}.

Section Handle.
Context {K : Type} {kernel : Kernel K} {requests : Requests}
        {capabilities : Capabilities}.

(** Modelled from the spec: [EventTypes()], absent from the sources: a
    bitset over the event-type codes, filled by one query of the device's
    capability mask, the error dropped as in [KeyState]. *)
Definition EventTypes (d : Device) (w : World K) : World K * go Bitset :=
  let bs := NewBitset EvMax in
  let buf := Bitset_Bytes bs in
  match buf with
  | [] => (w, Panic)
  | _ :: _ =>
      let '(w', (_, buf')) :=
        ioctl_bytes (Fd (fd d)) (_EVIOCGBIT 0 (Z.of_nat (length buf))) buf w in
      (w', Ret (Bitset_written bs buf'))
  end.

(** Modelled from the spec: [Close()], absent from the sources: it releases
    the descriptor, after which the handle's file reports descriptor -1. *)
Definition Close (d : Device) : Device := mkDevice (mkFile (-1)).

(** The kernel refuses every request on the descriptor of a closed file. *)
Definition released (k : K) : Prop :=
  forall name,
    (forall buf, exists e,
        snd (kernel_bits k (uintptr (-1)) name buf) = Errno e) /\
    (forall entry, exists e,
        snd (kernel_keymap k (uintptr (-1)) name entry) = Errno e).

End Handle.

(** ** The inbound event transport, from the specification *)

(** Modelled from the spec: an input event, with the fields of the event
    wire format. *)
Record Event : Type := mkEvent {
  ev_sec : Z;
  ev_usec : Z;
  ev_type : Z;
  ev_code : Z;
  ev_value : Z
}.

(** Modelled from the spec: the three phases of a transport direction. *)
Inductive phase : Type :=
  | Idle
  | Running
  | Stopped.

(** Modelled from the spec: the inbound direction of the transport, absent
    from the sources.  [pending] holds the raw records the kernel has
    produced and the pump has not read yet, [in_hand] the event the pump has
    decoded and not delivered yet, [inbox] the events waiting in the inbound
    channel, [received] the events the application has taken from it, all
    oldest first.  [produced] records every raw record the kernel produced. *)
Record transport : Type := mkTransport {
  ph : phase;
  pending : list (list Z);
  in_hand : option Event;
  inbox : list Event;
  inbox_closed : bool;
  received : list Event;
  produced : list (list Z)
}.

(** Modelled from the spec: the transport before the device is opened. *)
Definition transport_init : transport :=
  {| ph := Idle; pending := []; in_hand := None; inbox := [];
     inbox_closed := false; received := []; produced := [] |}.

(** Modelled from the spec: what can happen next; the kernel, the pump and
    the application take turns in any order. *)
Inductive action : Type :=
  | KernelProduce (r : list Z)
  | PumpStart
  | PumpRead
  | PumpSend
  | PumpHandOver
  | AppReceive
  | DeviceClose.

Section Transport.
(** The decoder of a raw record, and the capacity of the inbound channel. *)
Variable decode : list Z -> option Event.
Variable capacity : nat.

(** Modelled from the spec: one turn.  The pump reads one record at a time,
    decodes it and delivers it to the channel before it reads the next; a
    record that does not decode stops the pump and closes the channel, and
    so does closing the device.  [None]: the turn cannot be taken now. *)
Definition step (a : action) (s : transport) : option transport :=
  match a with
  | KernelProduce r =>
      Some (mkTransport (ph s) (pending s ++ [r]) (in_hand s) (inbox s)
              (inbox_closed s) (received s) (produced s ++ [r]))
  | PumpStart =>
      match ph s with
      | Idle =>
          Some (mkTransport Running (pending s) (in_hand s) (inbox s)
                  (inbox_closed s) (received s) (produced s))
      | _ => None
      end
  | PumpRead =>
      match ph s, in_hand s, pending s with
      | Running, None, r :: rest =>
          match decode r with
          | Some ev =>
              Some (mkTransport Running rest (Some ev) (inbox s)
                      (inbox_closed s) (received s) (produced s))
          | None =>
              Some (mkTransport Stopped rest None (inbox s) true
                      (received s) (produced s))
          end
      | _, _, _ => None
      end
  | PumpSend =>
      match ph s, in_hand s with
      | Running, Some ev =>
          if (length (inbox s) <? capacity)%nat
          then Some (mkTransport Running (pending s) None (inbox s ++ [ev])
                       (inbox_closed s) (received s) (produced s))
          else None
      | _, _ => None
      end
  | PumpHandOver =>
      match ph s, in_hand s, inbox s with
      | Running, Some ev, [] =>
          Some (mkTransport Running (pending s) None []
                  (inbox_closed s) (received s ++ [ev]) (produced s))
      | _, _, _ => None
      end
  | AppReceive =>
      match inbox s with
      | ev :: rest =>
          Some (mkTransport (ph s) (pending s) (in_hand s) rest
                  (inbox_closed s) (received s ++ [ev]) (produced s))
      | [] => None
      end
  | DeviceClose =>
      match ph s with
      | Running =>
          Some (mkTransport Stopped (pending s) None (inbox s) true
                  (received s) (produced s))
      | _ => None
      end
  end.

(** A schedule of turns, taken from left to right. *)
Fixpoint run (schedule : list action) (s : transport) : option transport :=
  match schedule with
  | [] => Some s
  | a :: rest =>
      match step a s with
      | Some s' => run rest s'
      | None => None
      end
  end.

(** The events the pump has put on the inbound channel so far, in the
    order of delivery. *)
Definition delivered (s : transport) : list Event := received s ++ inbox s.

(** The event the pump holds, as a list. *)
Definition held (s : transport) : list Event :=
  match in_hand s with
  | Some ev => [ev]
  | None => []
  end.

(** The records read so far account, in order, for everything delivered. *)
Definition in_order (s : transport) : Prop :=
  exists consumed,
    produced s = consumed ++ pending s /\
    match ph s with
    | Stopped =>
        in_hand s = None /\
        exists dropped,
          map decode consumed = map Some (delivered s) ++ dropped
    | _ => map decode consumed = map Some (delivered s ++ held s)
    end.

End Transport.

(** A decoder for the event wire format on a 64-bit little-endian machine:
    8-byte seconds, 8-byte microseconds, 16-bit type, 16-bit code, 32-bit
    signed value, 24 bytes in all. *)
Definition little_endian (bytes : list Z) : Z :=
  fold_right (fun b acc => b + 256 * acc) 0 bytes.

Definition to_int32 (x : Z) : Z :=
  if x mod 2 ^ 32 <? 2 ^ 31 then x mod 2 ^ 32 else x mod 2 ^ 32 - 2 ^ 32.

Definition decode_event (r : list Z) : option Event :=
  if (length r =? 24)%nat
  then Some {| ev_sec := little_endian (take 8 r);
               ev_usec := little_endian (take 8 (drop 8 r));
               ev_type := little_endian (take 2 (drop 16 r));
               ev_code := little_endian (take 2 (drop 18 r));
               ev_value := to_int32 (little_endian (take 4 (drop 20 r))) |}
  else None.

(** Raw records for a press and a release of [KeyA]. *)
Definition raw_key (code value : Z) : list Z :=
  replicate 16 0 ++ [1; 0] ++ [code mod 256; code / 256] ++
  [value; 0; 0; 0].

Definition press_release : list action :=
  [PumpStart; KernelProduce (raw_key KeyA 1); KernelProduce (raw_key KeyA 0);
   PumpRead; PumpSend; PumpRead; AppReceive; PumpSend; AppReceive].

(** ** A driver to run the methods on *)

(** The request codes as Linux defines them with its [_IOC] encoding:
    direction, size, type and number packed into 32 bits. *)
Definition _IOC (dir type nr size : Z) : Z :=
  Z.lor (Z.shiftl dir 30)
    (Z.lor (Z.shiftl size 16) (Z.lor (Z.shiftl type 8) nr)).

Definition linux_requests : Requests :=
  {| _EVIOCGKEY := fun len => _IOC 2 0x45 0x18 len;
     _EVIOCGKEYCODE := _IOC 2 0x45 0x04 40;
     _EVIOCSKEYCODE := _IOC 1 0x45 0x04 40 |}.

Definition linux_capabilities : Capabilities :=
  {| EvMax := 0x1f;
     _EVIOCGBIT := fun ev len => _IOC 2 0x45 (0x20 + ev) len |}.

(** A driver with a single open descriptor.  On it, a byte request is
    answered with the bitmap of the keys held, and a keymap request is
    accepted with the entry as it came; any other descriptor is refused
    with [EBADF]. *)
Record toy : Type := mkToy {
  toy_fd : Z;
  toy_held : list Z
}.

Definition toy_bits (k : toy) (desc name : Z) (buf : list Z)
  : toy * reply (list Z) :=
  if desc =? toy_fd k then (k, Wrote (toy_held k)) else (k, Errno EBADF).

Definition toy_keymap (k : toy) (desc name : Z) (entry : KeymapEntry)
  : toy * reply KeymapEntry :=
  if desc =? toy_fd k then (k, Wrote entry) else (k, Errno EBADF).

#[export] Instance toy_kernel : Kernel toy :=
  {| kernel_bits := toy_bits; kernel_keymap := toy_keymap |}.

(** A world with descriptor 3 open and no key held, a handle on that
    descriptor, and a handle whose file is closed. *)
Definition toy_world : World toy := mkWorld (mkToy 3 (replicate 96 0)) [].
Definition open_device : Device := mkDevice (mkFile 3).
Definition closed_device : Device := mkDevice (mkFile (-1)).

(** The state the transport is in after [press_release]. *)
Definition press_release_end : transport :=
  {| ph := Running; pending := []; in_hand := None; inbox := [];
     inbox_closed := false;
     received := [mkEvent 0 0 1 KeyA 1; mkEvent 0 0 1 KeyA 0];
     produced := [raw_key KeyA 1; raw_key KeyA 0] |}.


(** A well-typed entry whose length byte is beyond the scancode buffer. *)
Definition long_entry : KeymapEntry :=
  {| Flags := 0; Len := 255; Index := 0; Keycode := KeyA;
     Scancode := replicate ScancodeCap 0 |}.

(** ** The example program (examples/keys/main.go) *)

(** The line feed [fmt.Println] ends a line with. *)
Definition newline : string := String (Ascii.ascii_of_nat 10) EmptyString.

(** [fmt.Sprintf("%02x", n)] for an [int]: lower-case hexadecimal digits,
    padded with zeros to two characters, the sign of a negative number
    counting as one of them. *)
Definition sprintf_02x (n : Z) : string :=
  match n with
  | Z0 => "00"
  | Zpos p =>
      let digits := HexString.Raw.of_pos p EmptyString in
      if (String.length digits <? 2)%nat then "0" +:+ digits else digits
  | Zneg p => "-" +:+ HexString.Raw.of_pos p EmptyString
  end.

(** The [switch n] of [listState]: the codes it knows a name for. *)
Definition key_name (n : Z) : string :=
  if n =? KeyReserved then "Reserved"
  else if n =? KeyEscape then "Escape"
  else if n =? BtnStylus2 then "2nd stylus button"
  else "".

(** What one iteration of [listState] prints for a code whose bit is set:
    [Printf("  Key 0x%02x ", n)], the name if any, [Println()]. *)
Definition key_line (n : Z) : string :=
  ("  Key 0x" +:+ sprintf_02x n +:+ " ") +:+ key_name n +:+ newline.

(** The loop of [listState] from [n] on, with [out] printed so far:
    [for ; n < set.Len(); n++], skipping the codes whose bit is unset.
    [fuel] bounds the number of iterations. *)
Fixpoint listState_loop (fuel : nat) (set : Bitset) (n : Z) (out : string)
  : string :=
  match fuel with
  | O => out
  | S fuel' =>
      if n <? Bitset_Len set then
        if negb (Bitset_Test set n)
        then listState_loop fuel' set (n + 1) out
        else listState_loop fuel' set (n + 1) (out +:+ key_line n)
      else out
  end.

(** [func listState(set evdev.Bitset)]: what it writes to standard output.
    The loop runs [set.Len()] times at most. *)
Definition listState (set : Bitset) : string :=
  listState_loop (Z.to_nat (Bitset_Len set)) set 0 "".

(** What the [select] of the event loop of [main] picked: the signal
    channel, or an event from the inbox. *)
Inductive selected : Type :=
  | Signalled
  | Received (evt : Event).

Section EventLoop.
(** The code of the key event type, defined with the event types outside
    this file: a parameter here. *)
Variable EvKeys : Z.

(** The body of [case evt := <-dev.Inbox]: what it prints for one event. *)
Definition handle_event (evt : Event) : string :=
  if negb (ev_type evt =? EvKeys) then ""
  else if ev_value evt =? 0 then ""
  else if ev_code evt =? KeyA then "A was pressed" +:+ newline
  else if ev_code evt =? KeyLeftShift then "Left Shift was pressed" +:+ newline
  else if ev_code evt =? KeyEscape then "Escape was pressed" +:+ newline
  else if ev_code evt =? BtnLeft then "Left button was pressed" +:+ newline
  else if ev_code evt =? Btn3 then "Button 3 was pressed" +:+ newline
  else "".

(** The [for { select { ... } }] of [main], run on what the [select] picks
    turn by turn, with [out] printed so far.  The result is the output and
    whether the loop has returned; at the end of the picks the loop is
    still waiting. *)
Fixpoint event_loop (picks : list selected) (out : string) : string * bool :=
  match picks with
  | [] => (out, false)
  | Signalled :: _ => (out, true)
  | Received evt :: rest => event_loop rest (out +:+ handle_event evt)
  end.

End EventLoop.


(** The names of the key block that the source declares as another name's
    value, and the group names of the button block, each declared with the
    code of the first button of its group. *)
Definition key_aliases : list Z := [KeyHanguel; KeyScreenlock; KeyMinInteresting].
Definition button_groups : list Z :=
  [BtnMisc; BtnMouse; BtnJoystick; BtnGamepad; BtnDigi; BtnWheel;
   BtnTriggerHappy].

(** A bitmap of 96 bytes with the bits of [KeyEscape] and [KeyA] set. *)
Definition escape_and_a : list Z := [2; 0; 0; 64] ++ replicate 92 0.

(** Everything printed by a sequence of prints, in order. *)
Definition print_all (prints : list string) : string :=
  foldr String.append "" prints.

(** The toy world with [KeyEscape] and [KeyA] held down. *)
Definition toy_pressed : World toy := mkWorld (mkToy 3 escape_and_a) [].

(** * Properties *)

(** ** The code tables *)

Lemma is_key_code_spec (c : Z) : is_key_code c = true <-> 0 <= c <= KeyMax.
Proof. unfold is_key_code. rewrite andb_true_iff, !Z.leb_le. tauto. Qed.

Lemma all_key_codes (l : list Z) :
  forallb is_key_code l = true -> Forall (fun c => 0 <= c <= KeyMax) l.
Proof.
  induction l as [|c l IH]; simpl; intros H; constructor.
  - apply is_key_code_spec. apply andb_true_iff in H. tauto.
  - apply IH. apply andb_true_iff in H. tauto.
Qed.


(** ** The wire layout of KeymapEntry *)

(** C5: the record has a 1-byte flags field, a 1-byte length, a 2-byte
    index, a 4-byte keycode and a 32-byte scancode buffer, in that order
    and without padding, 40 bytes in total. *)
Theorem KeymapEntry_wire_layout :
  map sizeof KeymapEntry_fields = [1; 1; 2; 4; 32] /\
  field_offsets 0 KeymapEntry_fields = [0; 1; 2; 4; 8] /\
  struct_size KeymapEntry_fields = 40.
Proof. repeat split; vm_compute; reflexivity. Qed.

(** ** Fixed-width conversions *)

Lemma to_uint_range (w x : Z) : 0 <= w -> 0 <= to_uint w x < 2 ^ w.
Proof. intros Hw. unfold to_uint. apply Z.mod_pos_bound. lia. Qed.

Lemma to_uint_small (w x : Z) : 0 <= x < 2 ^ w -> to_uint w x = x.
Proof. intros Hx. unfold to_uint. apply Z.mod_small. exact Hx. Qed.

Lemma to_uint_idemp (w x : Z) : to_uint w (to_uint w x) = to_uint w x.
Proof. unfold to_uint. apply Zmod_mod. Qed.

(** ** The methods, call by call *)

Section MethodFacts.
Context {K : Type} {kernel : Kernel K} {requests : Requests}.

(** The storage [KeyState] allocates: 96 zero bytes. *)
Lemma KeyState_buffer :
  Bitset_Bytes (NewBitset KeyMax) = replicate 96 0.
Proof. reflexivity. Qed.

(** [KeyState] makes its one call and never reaches the panic. *)
Lemma KeyState_unfold (d : Device) (w : World K) :
  KeyState d w =
  (let '(w', (_, buf')) :=
     ioctl_bytes (Fd (fd d)) (_EVIOCGKEY 96) (replicate 96 0) w in
   (w', Ret (Bitset_written (NewBitset KeyMax) buf'))).
Proof. reflexivity. Qed.

Lemma store_bytes_length (buf written : list Z) :
  length (store_bytes buf written) = length buf.
Proof.
  unfold store_bytes.
  rewrite length_app, length_take, length_drop, length_map. lia.
Qed.

Lemma ioctl_bytes_trace (desc name : Z) (buf : list Z) (w : World K) :
  trace (fst (ioctl_bytes desc name buf w)) =
  trace w ++ [Ioctl desc name (PBytes buf)].
Proof.
  unfold ioctl_bytes.
  destruct (kernel_bits (kern w) desc name buf) as [k' [e|m]]; reflexivity.
Qed.

Lemma ioctl_entry_trace (desc name : Z) (entry : KeymapEntry) (w : World K) :
  trace (fst (ioctl_entry desc name entry w)) =
  trace w ++ [Ioctl desc name (PEntry entry)].
Proof.
  unfold ioctl_entry.
  destruct (kernel_keymap (kern w) desc name entry) as [k' [e|m]];
    reflexivity.
Qed.

(** C7: for every keycode, [KeyMap] makes the get-keycode request
    without any check of its own, and the keycode field of the entry it
    hands to the kernel is the argument reduced modulo 2^32. *)
Theorem KeyMap_passes_keycode_through (d : Device) (keycode : Z) (w : World K) :
  trace (fst (KeyMap d keycode w)) =
  trace w ++
    [Ioctl (Fd (fd d)) _EVIOCGKEYCODE
       (PEntry {| Flags := 0; Len := 0; Index := 0;
                  Keycode := keycode mod 2 ^ 32;
                  Scancode := replicate ScancodeCap 0 |})].
Proof.
  unfold KeyMap.
  pose proof (ioctl_entry_trace (Fd (fd d)) _EVIOCGKEYCODE
                (set_Keycode KeymapEntry_zero (uint32 keycode)) w) as Ht.
  destruct (ioctl_entry _ _ _ w) as [w' [err entry']].
  simpl in *. exact Ht.
Qed.

(** C3: [SetKeyMap] answers true exactly when the set-keycode request
    succeeds and false exactly when it fails; it makes that one request,
    with the entry as given, and always returns. *)
Theorem SetKeyMap_true_iff_ioctl_succeeds
    (d : Device) (entry : KeymapEntry) (w : World K) :
  let r := snd (kernel_keymap (kern w) (Fd (fd d)) _EVIOCSKEYCODE entry) in
  (snd (SetKeyMap d entry w) = true <-> exists m, r = Wrote m) /\
  (snd (SetKeyMap d entry w) = false <-> exists e, r = Errno e) /\
  trace (fst (SetKeyMap d entry w)) =
    trace w ++ [Ioctl (Fd (fd d)) _EVIOCSKEYCODE (PEntry entry)].
Proof.
  unfold SetKeyMap, ioctl_entry.
  destruct (kernel_keymap (kern w) (Fd (fd d)) _EVIOCSKEYCODE entry)
    as [k' [e|m]]; simpl; repeat split;
    try (intros; discriminate); try (intros [? ?]; discriminate);
    eauto.
Qed.

(** What [KeyMap] returns, by the kernel's answer to its request. *)
Lemma KeyMap_value (d : Device) (keycode : Z) (w : World K) :
  snd (KeyMap d keycode w) =
  match snd (kernel_keymap (kern w) (Fd (fd d)) _EVIOCGKEYCODE
               (KeyMap_request keycode)) with
  | Errno _ => KeyMap_request keycode
  | Wrote m => store_entry m
  end.
Proof.
  unfold KeyMap, ioctl_entry, KeyMap_request.
  destruct (kernel_keymap _ _ _ _) as [k' [e|m]]; reflexivity.
Qed.

Lemma KeyMap_request_zero (keycode : Z) :
  KeyMap_request keycode = KeymapEntry_zero <-> keycode mod 2 ^ 32 = 0.
Proof.
  unfold KeyMap_request, set_Keycode, KeymapEntry_zero, uint32, to_uint.
  simpl. split.
  - intros Heq. injection Heq. auto.
  - intros ->. reflexivity.
Qed.

Lemma store_entry_valid (e : KeymapEntry) : KeymapEntry_valid (store_entry e).
Proof.
  unfold KeymapEntry_valid, store_entry; simpl.
  repeat split; try (apply to_uint_range; lia).
  - apply length_resize.
  - apply Forall_resize.
    + lia.
    + apply Forall_forall. intros b Hb.
      apply list_elem_of_fmap in Hb as [x [-> _]].
      apply to_uint_range. lia.
Qed.

(** C1, as the code has it: when the get-keycode request succeeds,
    [KeyMap] returns the entry the kernel filled in; when it fails,
    [KeyMap] returns the entry it had built for the request, every field
    zero except [Keycode], which holds the argument modulo 2^32.  That
    entry is the zero value exactly when the argument is a multiple of
    2^32. *)
Theorem KeyMap_result (d : Device) (keycode : Z) (w : World K) :
  match snd (kernel_keymap (kern w) (Fd (fd d)) _EVIOCGKEYCODE
               (KeyMap_request keycode)) with
  | Wrote m => snd (KeyMap d keycode w) = store_entry m
  | Errno _ =>
      snd (KeyMap d keycode w) =
        {| Flags := 0; Len := 0; Index := 0;
           Keycode := keycode mod 2 ^ 32;
           Scancode := replicate ScancodeCap 0 |} /\
      (snd (KeyMap d keycode w) = KeymapEntry_zero <->
       keycode mod 2 ^ 32 = 0)
  end.
Proof.
  rewrite KeyMap_value.
  destruct (kernel_keymap _ _ _ _) as [k' [e|m]]; simpl.
  - split; [reflexivity | apply KeyMap_request_zero].
  - reflexivity.
Qed.

(** C6, as the code has it: the entry [KeyMap] sends has [Len = 0]; the
    entry it returns has [Len = 0] when the request fails and otherwise
    the length byte the kernel wrote; [SetKeyMap] hands its entry to the
    kernel unchanged, whatever its [Len]. *)
Theorem keymap_Len_unchecked
    (d : Device) (keycode : Z) (entry : KeymapEntry) (w : World K) :
  Len (KeyMap_request keycode) = 0 /\
  Len (snd (KeyMap d keycode w)) =
    match snd (kernel_keymap (kern w) (Fd (fd d)) _EVIOCGKEYCODE
                 (KeyMap_request keycode)) with
    | Errno _ => 0
    | Wrote m => Len m mod 2 ^ 8
    end /\
  trace (fst (SetKeyMap d entry w)) =
    trace w ++ [Ioctl (Fd (fd d)) _EVIOCSKEYCODE (PEntry entry)].
Proof.
  split; [reflexivity|]. split.
  - rewrite KeyMap_value.
    destruct (kernel_keymap _ _ _ _) as [k' [e|m]]; reflexivity.
  - unfold SetKeyMap.
    pose proof (ioctl_entry_trace (Fd (fd d)) _EVIOCSKEYCODE entry w) as Ht.
    destruct (ioctl_entry _ _ _ w) as [w' [err entry']].
    simpl in *. exact Ht.
Qed.

Lemma ioctl_bytes_length (desc name : Z) (buf : list Z) (w : World K) :
  length (snd (snd (ioctl_bytes desc name buf w))) = length buf.
Proof.
  unfold ioctl_bytes.
  destruct (kernel_bits (kern w) desc name buf) as [k' [e|m]]; simpl.
  - reflexivity.
  - apply store_bytes_length.
Qed.

(** What [KeyState] returns, by the kernel's answer to its request. *)
Lemma KeyState_value (d : Device) (w : World K) :
  snd (KeyState d w) =
  Ret (Bitset_written (NewBitset KeyMax)
         match snd (kernel_bits (kern w) (Fd (fd d)) (_EVIOCGKEY 96)
                      (replicate 96 0)) with
         | Errno _ => replicate 96 0
         | Wrote written => store_bytes (replicate 96 0) written
         end).
Proof.
  rewrite KeyState_unfold. unfold ioctl_bytes.
  destruct (kernel_bits _ _ _ _) as [k' [e|m]]; reflexivity.
Qed.


Lemma nth_replicate_zero (n i : nat) : nth i (replicate n 0) 0 = 0.
Proof.
  revert i. induction n as [|n IH]; intros [|i]; simpl; auto.
Qed.

(** No bit of a fresh bitset is set. *)
Lemma NewBitset_Test (maxBits i : Z) : Bitset_Test (NewBitset maxBits) i = false.
Proof.
  unfold Bitset_Test, NewBitset; simpl.
  destruct ((0 <=? i) && (i <? maxBits)); [|reflexivity].
  rewrite nth_replicate_zero. apply Z.testbit_0_l.
Qed.

(** C4: when the key-state request fails, [KeyState] returns, without
    panicking, the bitset as it was allocated: every byte zero and every
    bit unset. *)
Theorem KeyState_failure_gives_empty (d : Device) (w : World K) (e : errno) :
  snd (kernel_bits (kern w) (Fd (fd d)) (_EVIOCGKEY 96) (replicate 96 0))
    = Errno e ->
  exists bs,
    snd (KeyState d w) = Ret bs /\
    bs = NewBitset KeyMax /\
    Forall (fun b => b = 0) (Bitset_Bytes bs) /\
    forall i, Bitset_Test bs i = false.
Proof.
  intros Hfail. rewrite KeyState_value, Hfail.
  exists (NewBitset KeyMax). split; [reflexivity|]. split; [reflexivity|].
  split.
  - rewrite KeyState_buffer. apply Forall_replicate. reflexivity.
  - intros i. apply NewBitset_Test.
Qed.

End MethodFacts.

(** ** The methods on the toy driver *)

(** On a closed handle the key-state request fails and the snapshot is
    empty. *)
Lemma KeyState_failure_gives_empty_closed :
  snd (kernel_bits (kern toy_world) (Fd (fd closed_device))
         (_EVIOCGKEY (Requests := linux_requests) 96) (replicate 96 0))
    = Errno EBADF /\
  exists bs,
    snd (KeyState (requests := linux_requests) closed_device toy_world)
      = Ret bs /\
    bs = NewBitset KeyMax /\
    Forall (fun b => b = 0) (Bitset_Bytes bs) /\
    forall i, Bitset_Test bs i = false.
Proof.
  split.
  - reflexivity.
  - apply (KeyState_failure_gives_empty (requests := linux_requests)
             closed_device toy_world EBADF).
    reflexivity.
Defined.

(** C1, refuted as stated: on a closed handle the get-keycode request for
    [KeyA] fails, and the entry returned still carries keycode 30. *)
Lemma KeyMap_failure_not_zero :
  snd (kernel_keymap (kern toy_world) (Fd (fd closed_device))
         (_EVIOCGKEYCODE (Requests := linux_requests)) (KeyMap_request KeyA))
    = Errno EBADF /\
  Keycode (snd (KeyMap (requests := linux_requests)
                  closed_device KeyA toy_world)) = 30 /\
  snd (KeyMap (requests := linux_requests) closed_device KeyA toy_world)
    <> KeymapEntry_zero.
Proof.
  split; [reflexivity|]. split; [reflexivity|].
  intros Heq. apply (f_equal Keycode) in Heq. vm_compute in Heq. discriminate.
Qed.

(** C6, refuted as stated: [SetKeyMap] takes a well-typed entry whose
    [Len] is 255, hands it to the kernel as it is, and reports success. *)
Lemma SetKeyMap_accepts_long_Len :
  KeymapEntry_valid long_entry /\
  32 < Len long_entry /\
  SetKeyMap (requests := linux_requests) open_device long_entry toy_world =
    (mkWorld (kern toy_world)
       [Ioctl 3 (_EVIOCSKEYCODE (Requests := linux_requests))
          (PEntry long_entry)],
     true).
Proof.
  split.
  - unfold KeymapEntry_valid, long_entry, KeyA; simpl.
    repeat match goal with |- _ /\ _ => split end;
      try lia; try reflexivity.
    repeat constructor; lia.
  - split; [reflexivity|]. reflexivity.
Qed.


(** ** Queries on a closed handle *)

Section ClosedHandle.
Context {K : Type} {kernel : Kernel K} {requests : Requests}
        {capabilities : Capabilities}.

(** What [EventTypes] returns, by the kernel's answer, when the event-type
    space is not empty. *)
Lemma EventTypes_refused (d : Device) (w : World K) :
  0 < EvMax ->
  (exists e,
     snd (kernel_bits (kern w) (Fd (fd d))
            (_EVIOCGBIT 0 (Z.of_nat (length (Bitset_Bytes (NewBitset EvMax)))))
            (Bitset_Bytes (NewBitset EvMax))) = Errno e) ->
  snd (EventTypes d w) = Ret (NewBitset EvMax).
Proof.
  intros Hpos [e He]. unfold EventTypes.
  destruct (Bitset_Bytes (NewBitset EvMax)) as [|b buf] eqn:Hbuf.
  - exfalso. unfold Bitset_Bytes, NewBitset in Hbuf; simpl in Hbuf.
    apply (f_equal (@length Z)) in Hbuf. rewrite length_replicate in Hbuf.
    simpl in Hbuf.
    assert (1 <= (EvMax + 7) / 8) by (apply Z.div_le_lower_bound; lia).
    lia.
  - unfold ioctl_bytes.
    destruct (kernel_bits _ _ _ _) as [k' [e'|m]]; simpl in *.
    + unfold Bitset_written, NewBitset in *. simpl in *.
      rewrite <- Hbuf. reflexivity.
    + discriminate.
Qed.

Lemma Fd_Close (d : Device) : Fd (fd (Close d)) = uintptr (-1).
Proof. reflexivity. Qed.

(** C8, as the code has it: once [Close] has released the descriptor,
    [EventTypes] and [KeyState] return an empty bitset, [SetKeyMap] returns
    false, and [KeyMap] returns the entry of its request, zero but for the
    keycode it was asked about; none of them panics. *)
Theorem queries_after_Close
    (d : Device) (w : World K) (keycode : Z) (entry : KeymapEntry) :
  released (kern w) ->
  0 < EvMax ->
  snd (EventTypes (Close d) w) = Ret (NewBitset EvMax) /\
  snd (KeyState (Close d) w) = Ret (NewBitset KeyMax) /\
  snd (SetKeyMap (Close d) entry w) = false /\
  snd (KeyMap (Close d) keycode w) =
    {| Flags := 0; Len := 0; Index := 0; Keycode := keycode mod 2 ^ 32;
       Scancode := replicate ScancodeCap 0 |}.
Proof.
  intros Hrel Hpos. split; [|split; [|split]].
  - apply EventTypes_refused; [exact Hpos|].
    rewrite Fd_Close. apply Hrel.
  - rewrite KeyState_value, Fd_Close.
    destruct (proj1 (Hrel (_EVIOCGKEY 96)) (replicate 96 0)) as [e ->].
    reflexivity.
  - unfold SetKeyMap, ioctl_entry. rewrite Fd_Close.
    destruct (proj2 (Hrel _EVIOCSKEYCODE) entry) as [e He].
    destruct (kernel_keymap _ _ _ _) as [k' r]. simpl in He. subst r.
    reflexivity.
  - rewrite KeyMap_value, Fd_Close.
    destruct (proj2 (Hrel _EVIOCGKEYCODE) (KeyMap_request keycode)) as [e ->].
    reflexivity.
Qed.

End ClosedHandle.

Lemma toy_world_released : released (kern toy_world).
Proof. intros name. split; intros x; exists EBADF; reflexivity. Qed.

(** The queries on the toy driver after [Close]. *)
Lemma queries_after_Close_toy :
  released (kern toy_world) /\
  0 < EvMax (Capabilities := linux_capabilities) /\
  snd (EventTypes (capabilities := linux_capabilities)
         (Close open_device) toy_world)
    = Ret (NewBitset (EvMax (Capabilities := linux_capabilities))) /\
  snd (KeyState (requests := linux_requests) (Close open_device) toy_world)
    = Ret (NewBitset KeyMax) /\
  snd (SetKeyMap (requests := linux_requests)
         (Close open_device) long_entry toy_world) = false /\
  snd (KeyMap (requests := linux_requests) (Close open_device) KeyA toy_world)
    = {| Flags := 0; Len := 0; Index := 0; Keycode := KeyA mod 2 ^ 32;
         Scancode := replicate ScancodeCap 0 |}.
Proof.
  split; [intros name; split; intros x; exists EBADF; reflexivity|].
  split; [reflexivity|].
  apply (queries_after_Close (requests := linux_requests)
           (capabilities := linux_capabilities)
           open_device toy_world KeyA long_entry).
  - intros name. split; intros x; exists EBADF; reflexivity.
  - reflexivity.
Defined.

(** C8, refuted as stated: after [Close], with every request refused,
    [KeyMap] asked about [KeyA] does not return the zero entry. *)
Lemma KeyMap_after_Close_not_zero :
  released (kern toy_world) /\
  snd (KeyMap (requests := linux_requests) (Close open_device) KeyA toy_world)
    <> KeymapEntry_zero.
Proof.
  split; [exact toy_world_released|].
  intros Heq. apply (f_equal Keycode) in Heq. vm_compute in Heq. discriminate.
Qed.

(** ** The inbound transport keeps the kernel's order *)

Section TransportFacts.
Variable decode : list Z -> option Event.
Variable capacity : nat.

Lemma in_order_init : in_order decode transport_init.
Proof. exists []. split; reflexivity. Qed.

(** Every turn keeps the accounting of [in_order]. *)
Lemma step_in_order (a : action) (s s' : transport) :
  in_order decode s -> step decode capacity a s = Some s' ->
  in_order decode s'.
Proof.
  intros [consumed [Hprod Hacc]] Hstep.
  destruct s as [p pend hand box closed recv prod].
  unfold delivered, held in Hacc. simpl in Hprod, Hacc.
  destruct a; simpl in Hstep.
  - (* the kernel produces a record *)
    injection Hstep as <-. exists consumed. simpl. split.
    + rewrite Hprod. symmetry. apply app_assoc.
    + exact Hacc.
  - (* the pump starts *)
    destruct p; try discriminate. injection Hstep as <-.
    exists consumed. simpl. split; assumption.
  - (* the pump reads a record *)
    destruct p; try discriminate.
    destruct hand; try discriminate.
    destruct pend as [|r rest]; try discriminate.
    rewrite app_nil_r in Hacc.
    destruct (decode r) as [ev|] eqn:Hdec; injection Hstep as <-;
      exists (consumed ++ [r]); simpl; unfold delivered, held; simpl.
    + split.
      * rewrite Hprod, <- app_assoc. reflexivity.
      * rewrite map_app, Hacc. simpl. rewrite Hdec.
        rewrite (map_app Some (recv ++ box) [ev]). reflexivity.
    + split.
      * rewrite Hprod, <- app_assoc. reflexivity.
      * split; [reflexivity|]. exists [None].
        rewrite map_app, Hacc. simpl. rewrite Hdec. reflexivity.
  - (* the pump sends the event it holds *)
    destruct p; try discriminate.
    destruct hand as [ev|]; try discriminate.
    destruct (length box <? capacity)%nat; try discriminate.
    injection Hstep as <-. exists consumed. simpl.
    unfold delivered, held; simpl. split; [exact Hprod|].
    rewrite Hacc, app_nil_r, <- app_assoc. reflexivity.
  - (* the pump hands the event to a waiting receiver *)
    destruct p; try discriminate.
    destruct hand as [ev|]; try discriminate.
    destruct box; try discriminate.
    injection Hstep as <-. exists consumed. simpl.
    unfold delivered, held; simpl. split; [exact Hprod|].
    rewrite Hacc, !app_nil_r. reflexivity.
  - (* the application receives *)
    destruct box as [|ev rest]; try discriminate.
    injection Hstep as <-. exists consumed. simpl.
    unfold delivered, held; simpl. split; [exact Hprod|].
    rewrite <- (app_assoc recv [ev] rest). exact Hacc.
  - (* the device is closed *)
    destruct p; try discriminate. injection Hstep as <-.
    exists consumed. simpl. unfold delivered; simpl.
    split; [exact Hprod|]. split; [reflexivity|].
    exists (map Some (match hand with Some ev => [ev] | None => [] end)).
    rewrite Hacc, <- map_app. reflexivity.
Qed.

Lemma run_in_order (schedule : list action) (s s' : transport) :
  in_order decode s -> run decode capacity schedule s = Some s' ->
  in_order decode s'.
Proof.
  revert s. induction schedule as [|a rest IH]; simpl; intros s Hs Hrun.
  - injection Hrun as <-. exact Hs.
  - destruct (step decode capacity a s) as [s1|] eqn:Hstep; [|discriminate].
    apply (IH s1); [|exact Hrun].
    apply (step_in_order a s); assumption.
Qed.

(** C9: under every schedule of the kernel, the pump and the application,
    the events delivered on the inbound channel, and the events the
    application has received, are the decodings of the kernel's records in
    the kernel's order, one for one from the first record on; and when the
    pump is still running with nothing left in flight, they are the
    decodings of all the records. *)
Theorem inbound_order_preserved (schedule : list action) (s : transport) :
  run decode capacity schedule transport_init = Some s ->
  (exists later,
     map decode (produced s) = map Some (delivered s) ++ later) /\
  (exists later,
     map decode (produced s) = map Some (received s) ++ later) /\
  (ph s = Running -> pending s = [] -> in_hand s = None -> inbox s = [] ->
   map decode (produced s) = map Some (received s)).
Proof.
  intros Hrun.
  destruct (run_in_order schedule transport_init s in_order_init Hrun)
    as [consumed [Hprod Hacc]].
  assert (Hdel : exists later,
             map decode (produced s) = map Some (delivered s) ++ later).
  { rewrite Hprod, map_app. destruct (ph s).
    - exists (map Some (held s) ++ map decode (pending s)).
      rewrite Hacc, map_app, <- app_assoc. reflexivity.
    - exists (map Some (held s) ++ map decode (pending s)).
      rewrite Hacc, map_app, <- app_assoc. reflexivity.
    - destruct Hacc as [_ [dropped ->]].
      exists (dropped ++ map decode (pending s)).
      rewrite <- app_assoc. reflexivity. }
  split; [exact Hdel|]. split.
  - destruct Hdel as [later ->]. unfold delivered.
    exists (map Some (inbox s) ++ later).
    rewrite map_app, <- app_assoc. reflexivity.
  - intros Hph Hpend Hhand Hbox.
    rewrite Hph in Hacc. unfold delivered, held in Hacc.
    rewrite Hhand, Hbox, !app_nil_r in Hacc.
    rewrite Hprod, Hpend, app_nil_r. exact Hacc.
Qed.

End TransportFacts.

(** A press and a release of [KeyA] reach the application in that order. *)
Lemma inbound_order_press_release :
  run decode_event 1 press_release transport_init = Some press_release_end /\
  (exists later,
     map decode_event (produced press_release_end) =
       map Some (delivered press_release_end) ++ later) /\
  (exists later,
     map decode_event (produced press_release_end) =
       map Some (received press_release_end) ++ later) /\
  map decode_event (produced press_release_end) =
    map Some (received press_release_end).
Proof.
  split; [reflexivity|].
  destruct (inbound_order_preserved decode_event 1 press_release
              press_release_end eq_refl) as [Hdel [Hrecv Hall]].
  split; [exact Hdel|]. split; [exact Hrecv|].
  apply Hall; reflexivity.
Defined.

(** * Further properties of the code *)

(** ** The code tables *)

(** X1: no code of the key block is a code of the button block. *)
Theorem key_button_codes_disjoint :
  Forall (fun k => Forall (fun b => k <> b) button_constants) key_constants.
Proof. apply (bool_decide_unpack _). vm_compute. exact I. Qed.

(** X2: within each block a code has one name, except where the source
    itself gives a second name to a code: the three aliases of the key
    block and the seven group names of the button block, whose codes have
    exactly two names. *)
Theorem named_codes_distinct_up_to_aliases :
  NoDup (list_difference key_constants key_aliases) /\
  Forall (fun a => count_occ Z.eq_dec key_constants a = 2%nat) key_aliases /\
  NoDup (list_difference button_constants button_groups) /\
  Forall (fun g => count_occ Z.eq_dec button_constants g = 2%nat)
    button_groups.
Proof.
  repeat match goal with |- _ /\ _ => split end;
    apply (bool_decide_unpack _); vm_compute; exact I.
Qed.

(** ** More on the methods *)

Section MoreMethodFacts.
Context {K : Type} {kernel : Kernel K} {requests : Requests}.

Lemma uint32_plus_multiple (x m : Z) : uint32 (x + m * 2 ^ 32) = uint32 x.
Proof. unfold uint32, to_uint. apply Z_mod_plus_full. Qed.

(** X3: [KeyMap] sees its argument only through the conversion to
    [uint32]: keycodes that differ by a multiple of 2^32 give the same
    request, the same answer and the same world. *)
Theorem KeyMap_keycode_wraps (d : Device) (keycode m : Z) (w : World K) :
  KeyMap d (keycode + m * 2 ^ 32) w = KeyMap d keycode w.
Proof. unfold KeyMap. rewrite uint32_plus_multiple. reflexivity. Qed.

Lemma named_code_is_uint32 (c : Z) :
  c ∈ key_constants ++ button_constants -> uint32 c = c.
Proof.
  intros Hc. apply to_uint_small.
  assert (Hall : Forall (fun c => 0 <= c <= KeyMax)
                   (key_constants ++ button_constants)).
  { apply all_key_codes. vm_compute. reflexivity. }
  rewrite Forall_forall in Hall. specialize (Hall c Hc).
  unfold KeyMax in Hall. lia.
Qed.

(** X4: asked about a named key or button code, [KeyMap] hands the kernel
    an entry that carries exactly that code and is zero otherwise. *)
Theorem KeyMap_asks_about_named_code (d : Device) (c : Z) (w : World K) :
  c ∈ key_constants ++ button_constants ->
  trace (fst (KeyMap d c w)) =
  trace w ++
    [Ioctl (Fd (fd d)) _EVIOCGKEYCODE
       (PEntry {| Flags := 0; Len := 0; Index := 0; Keycode := c;
                  Scancode := replicate ScancodeCap 0 |})].
Proof.
  intros Hc. unfold KeyMap.
  pose proof (ioctl_entry_trace (Fd (fd d)) _EVIOCGKEYCODE
                (set_Keycode KeymapEntry_zero (uint32 c)) w) as Ht.
  destruct (ioctl_entry _ _ _ w) as [w' [err entry']].
  simpl in *. rewrite Ht, (named_code_is_uint32 c Hc). reflexivity.
Qed.

(** X5: [KeyState] makes exactly one request, on the handle's descriptor:
    the key-state request for 96 bytes, one bit for each of the [KeyCount]
    codes, with a buffer of 96 zero bytes. *)
Theorem KeyState_request (d : Device) (w : World K) :
  trace (fst (KeyState d w)) =
    trace w ++
      [Ioctl (Fd (fd d)) (_EVIOCGKEY 96) (PBytes (replicate 96 0))] /\
  8 * 96 = KeyCount.
Proof.
  split; [|reflexivity].
  rewrite KeyState_unfold.
  pose proof (ioctl_bytes_trace (Fd (fd d)) (_EVIOCGKEY 96)
                (replicate 96 0) w) as Ht.
  destruct (ioctl_bytes _ _ _ w) as [w' [err buf']].
  exact Ht.
Qed.

Lemma map_uint8_bytes (l : list Z) :
  Forall (fun b => 0 <= b < 256) l -> map uint8 l = l.
Proof.
  induction 1 as [|b l Hb _ IH]; simpl; [reflexivity|].
  rewrite IH. f_equal. apply to_uint_small. lia.
Qed.

(** A buffer of zeros after a write of at most its length. *)
Lemma store_bytes_zeros (n : nat) (written : list Z) :
  (length written <= n)%nat ->
  Forall (fun b => 0 <= b < 256) written ->
  store_bytes (replicate n 0) written =
    written ++ replicate (n - length written) 0.
Proof.
  intros Hlen Hbytes. unfold store_bytes.
  rewrite map_uint8_bytes by exact Hbytes.
  rewrite length_replicate, take_ge by lia.
  rewrite drop_replicate. reflexivity.
Qed.

Lemma nth_app_zeros (l : list Z) (n i : nat) :
  nth i (l ++ replicate n 0) 0 = nth i l 0.
Proof.
  destruct (Nat.lt_ge_cases i (length l)) as [Hlt|Hge].
  - apply app_nth1. exact Hlt.
  - rewrite app_nth2 by exact Hge.
    rewrite nth_replicate_zero. symmetry. apply nth_overflow. exact Hge.
Qed.

(** X6: when the key-state request succeeds and the kernel has written at
    most 96 bytes, the snapshot holds those bytes followed by zeros, and
    for every code below [KeyMax] the bit [Test] reports is the bit the
    kernel wrote, least significant bit first; a code beyond what was
    written reads as not pressed. *)
Theorem KeyState_snapshot_of_kernel
    (d : Device) (w : World K) (written : list Z) :
  snd (kernel_bits (kern w) (Fd (fd d)) (_EVIOCGKEY 96) (replicate 96 0))
    = Wrote written ->
  (length written <= 96)%nat ->
  Forall (fun b => 0 <= b < 256) written ->
  exists bs,
    snd (KeyState d w) = Ret bs /\
    Bitset_Bytes bs = written ++ replicate (96 - length written) 0 /\
    forall c, 0 <= c < KeyMax ->
      Bitset_Test bs c =
        Z.testbit (nth (Z.to_nat (c / 8)) written 0) (c mod 8).
Proof.
  intros Hok Hlen Hbytes. rewrite KeyState_value, Hok.
  eexists. split; [reflexivity|].
  unfold Bitset_Bytes, Bitset_written. cbn [bs_store].
  rewrite store_bytes_zeros by assumption.
  split; [reflexivity|].
  intros c Hc. unfold Bitset_Test. cbn [bs_max bs_store NewBitset].
  replace ((0 <=? c) && (c <? KeyMax)) with true.
  - rewrite nth_app_zeros. reflexivity.
  - symmetry. apply andb_true_iff. split; [apply Z.leb_le|apply Z.ltb_lt]; lia.
Qed.

End MoreMethodFacts.

(** [KeyMap] asked about [BtnStylus2] on the toy driver. *)
Lemma KeyMap_asks_about_BtnStylus2 :
  BtnStylus2 ∈ key_constants ++ button_constants /\
  trace (fst (KeyMap (requests := linux_requests)
                open_device BtnStylus2 toy_world)) =
  trace toy_world ++
    [Ioctl (Fd (fd open_device)) (_EVIOCGKEYCODE (Requests := linux_requests))
       (PEntry {| Flags := 0; Len := 0; Index := 0; Keycode := BtnStylus2;
                  Scancode := replicate ScancodeCap 0 |})].
Proof.
  split.
  - apply (bool_decide_unpack _). vm_compute. exact I.
  - apply (KeyMap_asks_about_named_code (requests := linux_requests)
             open_device BtnStylus2 toy_world).
    apply (bool_decide_unpack _). vm_compute. exact I.
Defined.

(** The snapshot of the toy driver with [KeyEscape] and [KeyA] held. *)
Lemma KeyState_snapshot_of_toy :
  snd (kernel_bits (kern toy_pressed) (Fd (fd open_device))
         (_EVIOCGKEY (Requests := linux_requests) 96) (replicate 96 0))
    = Wrote escape_and_a /\
  exists bs,
    snd (KeyState (requests := linux_requests) open_device toy_pressed)
      = Ret bs /\
    Bitset_Bytes bs = escape_and_a ++ replicate (96 - length escape_and_a) 0 /\
    forall c, 0 <= c < KeyMax ->
      Bitset_Test bs c =
        Z.testbit (nth (Z.to_nat (c / 8)) escape_and_a 0) (c mod 8).
Proof.
  split; [reflexivity|].
  apply (KeyState_snapshot_of_kernel (requests := linux_requests)
           open_device toy_pressed escape_and_a).
  - reflexivity.
  - vm_compute. lia.
  - apply (bool_decide_unpack _). vm_compute. exact I.
Defined.

(** ** The example program *)

Lemma string_append_nil_r (a : string) : a +:+ "" = a.
Proof.
  induction a as [|ch a IH]; [reflexivity|].
  change (String ch (a +:+ "") = String ch a). f_equal. exact IH.
Qed.

Lemma string_append_assoc (a b c : string) :
  (a +:+ b) +:+ c = a +:+ b +:+ c.
Proof.
  induction a as [|ch a IH]; [reflexivity|].
  change (String ch ((a +:+ b) +:+ c) = String ch (a +:+ b +:+ c)).
  f_equal. exact IH.
Qed.

Lemma seqZ_nonpos (m len : Z) : len <= 0 -> seqZ m len = [].
Proof.
  intros Hlen. unfold seqZ. replace (Z.to_nat len) with 0%nat by lia.
  reflexivity.
Qed.

(** The loop prints, after what was printed before, the lines of the set
    bits among the codes it still visits. *)
Lemma listState_loop_spec (set : Bitset) (fuel : nat) (n : Z) (out : string) :
  listState_loop fuel set n out =
  out +:+ print_all
            (map key_line
               (filter (fun c => Bitset_Test set c = true)
                  (seqZ n (Z.min (Z.of_nat fuel) (Bitset_Len set - n))))).
Proof.
  revert n out. induction fuel as [|fuel IH]; intros n out.
  - rewrite seqZ_nonpos by lia. simpl. symmetry. apply string_append_nil_r.
  - cbn [listState_loop]. destruct (Z.ltb_spec n (Bitset_Len set)) as [Hlt|Hge].
    + rewrite (seqZ_cons n) by lia.
      replace (Z.pred (Z.min (Z.of_nat (S fuel)) (Bitset_Len set - n)))
        with (Z.min (Z.of_nat fuel) (Bitset_Len set - Z.succ n)) by lia.
      rewrite filter_cons.
      destruct (Bitset_Test set n) eqn:Htest; simpl negb; cbv iota.
      * rewrite decide_True by reflexivity.
        rewrite IH. simpl. rewrite string_append_assoc.
        replace (n + 1) with (Z.succ n) by lia. reflexivity.
      * rewrite decide_False by discriminate.
        rewrite IH. replace (n + 1) with (Z.succ n) by lia. reflexivity.
    + rewrite seqZ_nonpos by lia. simpl. symmetry. apply string_append_nil_r.
Qed.

(** X7: [listState] prints one line for every code from 0 up to the
    bitset's [Len()] whose bit is set, in increasing order of the code, and
    nothing else. *)
Theorem listState_lists_set_bits (set : Bitset) :
  listState set =
  print_all
    (map key_line
       (filter (fun c => Bitset_Test set c = true)
          (seqZ 0 (Bitset_Len set)))).
Proof.
  unfold listState. rewrite listState_loop_spec. simpl String.append.
  destruct (Z.le_gt_cases 0 (Bitset_Len set)) as [Hpos|Hneg].
  - replace (Z.min (Z.of_nat (Z.to_nat (Bitset_Len set))) (Bitset_Len set - 0))
      with (Bitset_Len set) by lia.
    reflexivity.
  - rewrite !seqZ_nonpos by lia. reflexivity.
Qed.

(** A bitset without a set bit prints nothing. *)
Lemma listState_loop_unset (set : Bitset) (fuel : nat) (n : Z) (out : string) :
  (forall c, Bitset_Test set c = false) ->
  listState_loop fuel set n out = out.
Proof.
  intros Hunset. revert n. induction fuel as [|fuel IH]; intros n; simpl.
  - reflexivity.
  - destruct (n <? Bitset_Len set); [|reflexivity].
    rewrite Hunset. simpl. apply IH.
Qed.

Section ExampleFacts.
Context {K : Type} {kernel : Kernel K} {requests : Requests}.

(** X8: when the key-state request fails, [listState] of the snapshot
    [KeyState] returns prints nothing: the program shows a device it could
    not query as a device with no key held. *)
Theorem listState_of_failed_KeyState (d : Device) (w : World K) (e : errno) :
  snd (kernel_bits (kern w) (Fd (fd d)) (_EVIOCGKEY 96) (replicate 96 0))
    = Errno e ->
  exists ks, snd (KeyState d w) = Ret ks /\ listState ks = "".
Proof.
  intros Hfail. rewrite KeyState_value, Hfail.
  exists (NewBitset KeyMax). split; [reflexivity|].
  unfold listState. apply listState_loop_unset.
  intros c. apply NewBitset_Test.
Qed.

Lemma filter_agree (P Q : Z -> bool) (l : list Z) :
  Forall (fun c => P c = Q c) l ->
  filter (fun c => P c = true) l = filter (fun c => Q c = true) l.
Proof.
  induction 1 as [|c l Hc _ IH]; [reflexivity|].
  rewrite !filter_cons, IH, Hc. reflexivity.
Qed.

(** X9: when the key-state request succeeds, [listState] of the snapshot
    prints a line for exactly the codes below [KeyMax] whose bit the kernel
    set, in increasing order. *)
Theorem listState_of_KeyState
    (d : Device) (w : World K) (written : list Z) :
  snd (kernel_bits (kern w) (Fd (fd d)) (_EVIOCGKEY 96) (replicate 96 0))
    = Wrote written ->
  (length written <= 96)%nat ->
  Forall (fun b => 0 <= b < 256) written ->
  exists ks,
    snd (KeyState d w) = Ret ks /\
    listState ks =
      print_all
        (map key_line
           (filter
              (fun c =>
                 Z.testbit (nth (Z.to_nat (c / 8)) written 0) (c mod 8) = true)
              (seqZ 0 KeyMax))).
Proof.
  intros Hok Hlen Hbytes. rewrite KeyState_value, Hok.
  eexists. split; [reflexivity|].
  unfold listState. rewrite listState_loop_spec.
  change (Bitset_Len _) with KeyMax.
  change (Z.min (Z.of_nat (Z.to_nat KeyMax)) (KeyMax - 0)) with KeyMax.
  change ("" +:+ ?x) with x.
  f_equal. f_equal. apply filter_agree.
  apply Forall_forall. intros c Hc. apply elem_of_seqZ in Hc.
  unfold Bitset_Test, Bitset_written. cbn [bs_max bs_store NewBitset].
  rewrite store_bytes_zeros by assumption.
  replace ((0 <=? c) && (c <? KeyMax)) with true.
  - rewrite nth_app_zeros. reflexivity.
  - symmetry. apply andb_true_iff. split; [apply Z.leb_le|apply Z.ltb_lt]; lia.
Qed.

End ExampleFacts.

(** The listing for the closed handle on the toy driver. *)
Lemma listState_of_closed_device :
  snd (kernel_bits (kern toy_world) (Fd (fd closed_device))
         (_EVIOCGKEY (Requests := linux_requests) 96) (replicate 96 0))
    = Errno EBADF /\
  exists ks,
    snd (KeyState (requests := linux_requests) closed_device toy_world)
      = Ret ks /\
    listState ks = "".
Proof.
  split; [reflexivity|].
  apply (listState_of_failed_KeyState (requests := linux_requests)
           closed_device toy_world EBADF).
  reflexivity.
Defined.

(** The listing for the toy driver with [KeyEscape] and [KeyA] held. *)
Lemma listState_of_toy_pressed :
  snd (kernel_bits (kern toy_pressed) (Fd (fd open_device))
         (_EVIOCGKEY (Requests := linux_requests) 96) (replicate 96 0))
    = Wrote escape_and_a /\
  exists ks,
    snd (KeyState (requests := linux_requests) open_device toy_pressed)
      = Ret ks /\
    listState ks =
      print_all
        (map key_line
           (filter
              (fun c =>
                 Z.testbit (nth (Z.to_nat (c / 8)) escape_and_a 0) (c mod 8)
                 = true)
              (seqZ 0 KeyMax))).
Proof.
  split; [reflexivity|].
  apply (listState_of_KeyState (requests := linux_requests)
           open_device toy_pressed escape_and_a).
  - reflexivity.
  - vm_compute. lia.
  - apply (bool_decide_unpack _). vm_compute. exact I.
Defined.

Section EventLoopFacts.
Variable EvKeys : Z.


(** X11: the event loop handles the events in the order the [select]
    picks them, returns at the first signal without looking at anything
    picked later, and as long as no signal is picked it does not return,
    whatever events arrive. *)
Theorem event_loop_until_signal
    (evs : list Event) (later : list selected) (out : string) :
  event_loop EvKeys (map Received evs ++ Signalled :: later) out =
    (out +:+ print_all (map (handle_event EvKeys) evs), true) /\
  event_loop EvKeys (map Received evs) out =
    (out +:+ print_all (map (handle_event EvKeys) evs), false).
Proof.
  revert out. induction evs as [|evt evs IH]; intros out; simpl.
  - rewrite string_append_nil_r. split; reflexivity.
  - destruct (IH (out +:+ handle_event EvKeys evt)) as [IHs IHn].
    rewrite IHs, IHn, string_append_assoc. split; reflexivity.
Qed.

End EventLoopFacts.
